(** * A micro-blogging backend: posts, likes and a bearer-token resolver

    Shallow embedding of [backend/main.py].  The two SQL tables are lists of
    rows in insertion (rowid) order, a request handler is a computation in a
    small session monad that threads the SQLAlchemy [Session] (the committed
    database, the transaction's working copy and the log of commits) and may
    raise an [HTTPException].  What the handlers take from the environment
    ([uuid.uuid4()], [datetime.now(timezone.utc)]) is an explicit argument. *)

From Stdlib Require Import ZArith String Ascii Sorting.Sorted Permutation.
From stdpp Require Import base option list gmap strings.

Local Open Scope string_scope.
Local Open Scope Z_scope.

(** ** Rows and response models *)

(** [class PostDB(Base)], table "posts"; [id] is the primary key.  A
    timestamp is the instant as a number of microseconds. *)
Module PostDB.
Record t := mk {
  id : string;
  text : string;
  timestamp : Z;
  owner_id : string;
  owner_username : string }.
End PostDB.

#[global] Instance PostDB_eq_dec : EqDecision PostDB.t.
Proof. solve_decision. Defined.

(** [class LikeDB(Base)], table "likes"; [id] is the integer primary key. *)
Module LikeDB.
Record t := mk {
  id : Z;
  user_id : string;
  post_id : string }.
End LikeDB.

#[global] Instance LikeDB_eq_dec : EqDecision LikeDB.t.
Proof. solve_decision. Defined.

(** [class Post(BaseModel)] *)
Module Post.
Record t := mk {
  id : string;
  text : string;
  timestamp : Z;
  owner_id : string;
  owner_username : string;
  likes_count : Z }.
End Post.

#[global] Instance Post_eq_dec : EqDecision Post.t.
Proof. solve_decision. Defined.

(** [class User(BaseModel)] *)
Module User.
Record t := mk {
  id : string;
  username : string }.
End User.

(** One value of the dictionary [FAKE_USERS_DB]. *)
Module UserData.
Record t := mk {
  id : string;
  username : string;
  password : string }.
End UserData.

(** [FAKE_USERS_DB] *)
Definition FAKE_USERS_DB : gmap string UserData.t :=
  <["user1" := UserData.mk "1" "user1" "password1"]>
  (<["user2" := UserData.mk "2" "user2" "password2"]> ∅).

(** ** HTTP outcomes *)

Definition HTTP_400_BAD_REQUEST : Z := 400.
Definition HTTP_401_UNAUTHORIZED : Z := 401.
Definition HTTP_403_FORBIDDEN : Z := 403.
Definition HTTP_404_NOT_FOUND : Z := 404.

(** Exceptions no handler catches: the driver's [IntegrityError] when an
    INSERT repeats a primary key, [InvalidRequestError] when a refreshed row
    is gone, [IndexError] of a list subscript. *)
Inductive exception : Type :=
  | IntegrityError
  | InvalidRequestError
  | IndexError.

(** What a call ends with: a returned value, a raised [HTTPException] with
    its status code and detail, or an exception nobody handles. *)
Inductive outcome (A : Type) : Type :=
  | Return (a : A)
  | HTTPException (status_code : Z) (detail : string)
  | Unhandled (e : exception).
Arguments Return {A} a.
Arguments HTTPException {A} status_code detail.
Arguments Unhandled {A} e.

(** The status code the framework answers with: the route's own code on a
    return, the exception's code on an [HTTPException], 500 otherwise. *)
Definition status_of {A} (route_code : Z) (r : outcome A) : Z :=
  match r with
  | Return _ => route_code
  | HTTPException c _ => c
  | Unhandled _ => 500
  end.

(** ** The database and the session *)

Record DB := mkDB {
  posts : list PostDB.t;
  likes : list LikeDB.t }.

Definition empty_db : DB := mkDB [] [].

(** A [Session] (autocommit off): [committed] is what every other reader
    sees, [working] is the open transaction's view, [commits] logs each
    state that became visible, oldest first. *)
Record Session := mkSession {
  committed : DB;
  working : DB;
  commits : list DB }.

Definition M (A : Type) : Type := Session → outcome A * Session.

Definition ret {A} (a : A) : M A := λ s, (Return a, s).

Definition bind {A B} (m : M A) (k : A → M B) : M B := λ s,
  match m s with
  | (Return a, s') => k a s'
  | (HTTPException c d, s') => (HTTPException c d, s')
  | (Unhandled e, s') => (Unhandled e, s')
  end.

Definition raise {A} (status_code : Z) (detail : string) : M A :=
  λ s, (HTTPException status_code detail, s).

Declare Scope session_scope.
Delimit Scope session_scope with session.
Notation "x '<-' m ';;' k" := (bind m (λ x, k))
  (at level 100, m at next level, right associativity) : session_scope.
Notation "m ';;' k" := (bind m (λ _, k))
  (at level 100, right associativity) : session_scope.

(** [db.query(PostDB)] and [db.query(LikeDB)]: the rows the transaction
    sees. *)
Definition query_posts : M (list PostDB.t) := λ s, (Return (posts (working s)), s).
Definition query_likes : M (list LikeDB.t) := λ s, (Return (likes (working s)), s).

(** [Query.delete()] on likes: DELETE FROM likes WHERE P; answers the number
    of rows deleted. *)
Definition delete_likes_where (P : LikeDB.t → Prop) `{∀ l, Decision (P l)} : M Z :=
  λ s,
    let w := working s in
    (Return (Z.of_nat (length (filter P (likes w)))),
     mkSession (committed s)
               (mkDB (posts w) (filter (λ l, ¬ P l) (likes w)))
               (commits s)).

(** [db.delete(obj)]: DELETE FROM posts WHERE id = obj.id. *)
Definition delete_post_row (obj : PostDB.t) : M unit := λ s,
  let w := working s in
  (Return tt,
   mkSession (committed s)
             (mkDB (filter (λ p, PostDB.id p ≠ PostDB.id obj) (posts w)) (likes w))
             (commits s)).

(** [db.delete(obj)]: DELETE FROM likes WHERE id = obj.id. *)
Definition delete_like_row (obj : LikeDB.t) : M unit := λ s,
  let w := working s in
  (Return tt,
   mkSession (committed s)
             (mkDB (posts w) (filter (λ l, LikeDB.id l ≠ LikeDB.id obj) (likes w)))
             (commits s)).

(** [db.add(new_post)]: INSERT INTO posts; the primary key must be new.  The
    statement is sent when [commit] flushes the session; no handler does
    anything between the two calls, so the key is checked here. *)
Definition add_post (new_post : PostDB.t) : M unit := λ s,
  let w := working s in
  if decide (PostDB.id new_post ∈ PostDB.id <$> posts w)
  then (Unhandled IntegrityError, s)
  else (Return tt,
        mkSession (committed s) (mkDB (posts w ++ [new_post]) (likes w)) (commits s)).

(** The rowid SQLite gives a row inserted without one, on a table whose
    rowids lie between 1 and 2^63 - 2 (every table the application builds
    from an empty one): one more than the largest in use, 1 in an empty
    table.  Outside that range SQLite takes another unused rowid. *)
Definition next_rowid (rows : list LikeDB.t) : Z :=
  1 + foldr Z.max 0 (LikeDB.id <$> rows).

(** [db.add(LikeDB(user_id=..., post_id=...))]: INSERT INTO likes. *)
Definition add_like (user_id post_id : string) : M unit := λ s,
  let w := working s in
  (Return tt,
   mkSession (committed s)
             (mkDB (posts w) (likes w ++ [LikeDB.mk (next_rowid (likes w)) user_id post_id]))
             (commits s)).

(** [db.commit()] *)
Definition commit : M unit := λ s,
  (Return tt, mkSession (working s) (working s) (commits s ++ [working s])).

(** [db.refresh(obj)]: the row is read again by its primary key. *)
Definition refresh (obj : PostDB.t) : M PostDB.t := λ s,
  match head (filter (λ p, PostDB.id p = PostDB.id obj) (posts (working s))) with
  | Some row => (Return row, s)
  | None => (Unhandled InvalidRequestError, s)
  end.

(** [get_db]: a request opens a session on the database and closes it when
    the handler is done; closing drops whatever was not committed. *)
Definition open_session (db : DB) : Session := mkSession db db [].

Definition run {A} (handler : M A) (db : DB) : outcome A * DB :=
  let '(r, s) := handler (open_session db) in (r, committed s).

(** The states other readers could see while the handler ran. *)
Definition observed {A} (handler : M A) (db : DB) : list DB :=
  commits (handler (open_session db)).2.

(** ** Strings *)

(** [s.startswith(p)] *)
Definition startswith (s p : string) : bool := String.prefix p s.

(** [s.split(sep)] for a one-character separator: the text is scanned from
    the left, [word] holds the characters of the word being read. *)
Fixpoint split_from (sep : ascii) (word s : string) : list string :=
  match s with
  | EmptyString => [word]
  | String c rest =>
      if Ascii.eqb c sep then word :: split_from sep "" rest
      else split_from sep (word ++ String c "") rest
  end.

Definition split (s : string) (sep : ascii) : list string := split_from sep "" s.

(** [c in s] *)
Fixpoint occurs (c : ascii) (s : string) : bool :=
  match s with
  | EmptyString => false
  | String c' s' => Ascii.eqb c' c || occurs c s'
  end.

(** ** Authentication *)

(** [async def get_current_user(authorization)]; [not user_data] holds of
    [None] only, the entries of the directory being non-empty. *)
Definition get_current_user (authorization : string) : outcome User.t :=
  if negb (startswith authorization "Bearer ") then
    HTTPException HTTP_401_UNAUTHORIZED "Invalid scheme"
  else
    match split authorization " " !! 1%nat with
    | None => Unhandled IndexError
    | Some token =>
        match FAKE_USERS_DB !! token with
        | None => HTTPException HTTP_401_UNAUTHORIZED "Invalid token"
        | Some user_data =>
            Return (User.mk (UserData.id user_data) (UserData.username user_data))
        end
    end.

(** The JSON object [login] answers with. *)
Module LoginResponse.
Record t := mk {
  access_token : string;
  token_type : string;
  user : User.t }.
End LoginResponse.

(** [async def login(form_data: Dict[str, str])]; [dict.get] of an absent key
    is [None], and so is [FAKE_USERS_DB.get(None)]. *)
Definition login (form_data : gmap string string) : outcome LoginResponse.t :=
  let username := form_data !! "username" in
  let password := form_data !! "password" in
  let user := username ≫= (FAKE_USERS_DB !!.) in
  match user with
  | None => HTTPException HTTP_401_UNAUTHORIZED "Incorrect username or password"
  | Some user =>
      if decide (Some (UserData.password user) ≠ password) then
        HTTPException HTTP_401_UNAUTHORIZED "Incorrect username or password"
      else
        Return (LoginResponse.mk (UserData.username user) "bearer"
                  (User.mk (UserData.id user) (UserData.username user)))
  end.

(** ** Posts *)

Local Open Scope session_scope.

(** ORDER BY timestamp DESC: the rows are inserted one by one into a list
    kept newest first; rows of equal timestamp stay in rowid order. *)
Fixpoint insert_desc (p : PostDB.t) (rows : list PostDB.t) : list PostDB.t :=
  match rows with
  | [] => [p]
  | q :: rows' =>
      if decide (PostDB.timestamp q ≤ PostDB.timestamp p) then p :: q :: rows'
      else q :: insert_desc p rows'
  end.

Definition order_by_timestamp_desc (rows : list PostDB.t) : list PostDB.t :=
  foldr insert_desc [] rows.

(** [db.query(LikeDB).filter(LikeDB.post_id == post_id).count()] *)
Definition count_likes (post_id : string) : M Z :=
  likes <- query_likes;;
  ret (Z.of_nat (length (filter (λ l, LikeDB.post_id l = post_id) likes))).

(** The loop [for post in posts: ... result.append(Post(...))] shared by
    [list_posts] and [get_user_posts]. *)
Fixpoint for_post_in (posts : list PostDB.t) (result : list Post.t) : M (list Post.t) :=
  match posts with
  | [] => ret result
  | post :: posts' =>
      likes_count <- count_likes (PostDB.id post);;
      for_post_in posts'
        (result ++ [Post.mk (PostDB.id post) (PostDB.text post) (PostDB.timestamp post)
                      (PostDB.owner_id post) (PostDB.owner_username post) likes_count])
  end.

(** [async def list_posts(db)] *)
Definition list_posts : M (list Post.t) :=
  all <- query_posts;;
  let posts := order_by_timestamp_desc all in
  for_post_in posts [].

(** [class PostCreate(BaseModel)] *)
Module PostCreate.
Record t := mk { text : string }.
End PostCreate.

(** [async def create_post(post_data, current_user, db)]; [uuid4] is the
    value of [str(uuid.uuid4())] and [now] that of
    [datetime.now(timezone.utc)]. *)
Definition create_post (uuid4 : string) (now : Z)
    (post_data : PostCreate.t) (current_user : User.t) : M Post.t :=
  let new_post :=
    PostDB.mk uuid4 (PostCreate.text post_data) now
      (User.id current_user) (User.username current_user) in
  add_post new_post;;
  commit;;
  new_post <- refresh new_post;;
  ret (Post.mk (PostDB.id new_post) (PostDB.text new_post) (PostDB.timestamp new_post)
         (PostDB.owner_id new_post) (PostDB.owner_username new_post) 0).

(** [async def delete_post(post_id, current_user, db)] *)
Definition delete_post (post_id : string) (current_user : User.t) : M unit :=
  all <- query_posts;;
  let post_to_delete := head (filter (λ p, PostDB.id p = post_id) all) in
  match post_to_delete with
  | None => raise HTTP_404_NOT_FOUND "Post not found"
  | Some post_to_delete =>
      if decide (PostDB.owner_id post_to_delete ≠ User.id current_user) then
        raise HTTP_403_FORBIDDEN "Not authorized to delete this post"
      else
        delete_likes_where (λ l, LikeDB.post_id l = post_id);;
        delete_post_row post_to_delete;;
        commit
  end.

(** ** Likes *)

(** [async def like_post(post_id, current_user, db)] *)
Definition like_post (post_id : string) (current_user : User.t) : M string :=
  all <- query_posts;;
  let post := head (filter (λ p, PostDB.id p = post_id) all) in
  match post with
  | None => raise HTTP_404_NOT_FOUND "Post not found"
  | Some _ =>
      likes <- query_likes;;
      let existing_like :=
        head (filter (λ l, LikeDB.post_id l = post_id ∧
                           LikeDB.user_id l = User.id current_user) likes) in
      match existing_like with
      | Some _ => raise HTTP_400_BAD_REQUEST "Already liked this post"
      | None =>
          add_like (User.id current_user) post_id;;
          commit;;
          ret "Post liked successfully"
      end
  end.

(** [async def unlike_post(post_id, current_user, db)] *)
Definition unlike_post (post_id : string) (current_user : User.t) : M string :=
  all <- query_posts;;
  let post := head (filter (λ p, PostDB.id p = post_id) all) in
  match post with
  | None => raise HTTP_404_NOT_FOUND "Post not found"
  | Some _ =>
      likes <- query_likes;;
      let like :=
        head (filter (λ l, LikeDB.post_id l = post_id ∧
                           LikeDB.user_id l = User.id current_user) likes) in
      match like with
      | None => raise HTTP_400_BAD_REQUEST "Post not liked"
      | Some like =>
          delete_like_row like;;
          commit;;
          ret "Post unliked successfully"
      end
  end.

(** [async def get_user_posts(username, db)] *)
Definition get_user_posts (username : string) : M (list Post.t) :=
  all <- query_posts;;
  let posts :=
    order_by_timestamp_desc (filter (λ p, PostDB.owner_username p = username) all) in
  for_post_in posts [].

(** ** The application *)

(** The requests the routes accept; a guarded route carries the value of its
    [Authorization] header. *)
Inductive Request : Type :=
  | POST_login (form_data : gmap string string)
  | GET_posts
  | POST_posts (authorization : string) (post_data : PostCreate.t)
  | DELETE_post (post_id : string) (authorization : string)
  | POST_like (post_id : string) (authorization : string)
  | DELETE_like (post_id : string) (authorization : string)
  | GET_user_posts (username : string).

(** The response bodies. *)
Inductive Body : Type :=
  | LoginJSON (r : LoginResponse.t)
  | PostsJSON (l : list Post.t)
  | PostJSON (p : Post.t)
  | NoContent
  | MessageJSON (message : string).

(** What a request takes from the environment. *)
Record Env := mkEnv {
  uuid4 : string;
  now : Z }.

(** A dependency or handler that does not touch the session. *)
Definition lift {A} (o : outcome A) : M A := λ s, (o, s).

(** [Depends(get_current_user)] is resolved before the handler runs. *)
Definition app (env : Env) (req : Request) : M Body :=
  match req with
  | POST_login form_data =>
      r <- lift (login form_data);; ret (LoginJSON r)
  | GET_posts =>
      l <- list_posts;; ret (PostsJSON l)
  | POST_posts authorization post_data =>
      current_user <- lift (get_current_user authorization);;
      p <- create_post (uuid4 env) (now env) post_data current_user;;
      ret (PostJSON p)
  | DELETE_post post_id authorization =>
      current_user <- lift (get_current_user authorization);;
      delete_post post_id current_user;;
      ret NoContent
  | POST_like post_id authorization =>
      current_user <- lift (get_current_user authorization);;
      m <- like_post post_id current_user;;
      ret (MessageJSON m)
  | DELETE_like post_id authorization =>
      current_user <- lift (get_current_user authorization);;
      m <- unlike_post post_id current_user;;
      ret (MessageJSON m)
  | GET_user_posts username =>
      l <- get_user_posts username;; ret (PostsJSON l)
  end.

(** The [status_code] of each route's decorator (200 when it has none). *)
Definition route_status (req : Request) : Z :=
  match req with
  | POST_posts _ _ => 201
  | DELETE_post _ _ => 204
  | _ => 200
  end.

(** The database after a request has been served. *)
Definition step (env : Env) (req : Request) (db : DB) : DB :=
  (run (app env req) db).2.

(** The databases the application can be in: it starts on empty tables and
    serves one request after the other. *)
Inductive reachable : DB → Prop :=
  | reachable_empty : reachable empty_db
  | reachable_step env req db : reachable db → reachable (step env req db).

(** ** Properties of a database *)

(** No like row names a post that is not there. *)
Definition no_dangling_likes (db : DB) : Prop :=
  ∀ l, l ∈ likes db → LikeDB.post_id l ∈ PostDB.id <$> posts db.

(** A user likes a post at most once. *)
Definition like_pairs_unique (db : DB) : Prop :=
  NoDup ((λ l, (LikeDB.user_id l, LikeDB.post_id l)) <$> likes db).

(** The primary keys of the two tables. *)
Definition primary_keys (db : DB) : Prop :=
  NoDup (PostDB.id <$> posts db) ∧ NoDup (LikeDB.id <$> likes db).

(** [likes_count] as the data model defines it. *)
Definition likes_count_of (db : DB) (post_id : string) : Z :=
  Z.of_nat (length (filter (λ l, LikeDB.post_id l = post_id) (likes db))).

(** The response model of a row. *)
Definition to_Post (db : DB) (post : PostDB.t) : Post.t :=
  Post.mk (PostDB.id post) (PostDB.text post) (PostDB.timestamp post)
    (PostDB.owner_id post) (PostDB.owner_username post)
    (likes_count_of db (PostDB.id post)).

(** Rows are compared on their timestamps, newest first. *)
Definition newer (p q : PostDB.t) : Prop := PostDB.timestamp q ≤ PostDB.timestamp p.

(** The same on response models. *)
Definition newer_or_same (p q : Post.t) : Prop :=
  Post.timestamp q ≤ Post.timestamp p.

(** What serving one request can do to the two tables: nothing, one INSERT
    into posts under a new key, the DELETEs of [delete_post], the INSERT of
    [like_post] or the DELETE of [unlike_post]. *)
Inductive changes (db : DB) : DB → Prop :=
  | changes_nothing : changes db db
  | changes_post_added row :
      PostDB.id row ∉ PostDB.id <$> posts db →
      changes db (mkDB (posts db ++ [row]) (likes db))
  | changes_post_deleted post_id :
      changes db (mkDB (filter (λ p, PostDB.id p ≠ post_id) (posts db))
                       (filter (λ l, LikeDB.post_id l ≠ post_id) (likes db)))
  | changes_like_added user_id post_id :
      post_id ∈ PostDB.id <$> posts db →
      (∀ l, l ∈ likes db →
            ¬ (LikeDB.post_id l = post_id ∧ LikeDB.user_id l = user_id)) →
      changes db (mkDB (posts db)
                       (likes db ++ [LikeDB.mk (next_rowid (likes db)) user_id post_id]))
  | changes_like_deleted like_id :
      changes db (mkDB (posts db) (filter (λ l, LikeDB.id l ≠ like_id) (likes db))).

(** The three properties together. *)
Definition consistent (db : DB) : Prop :=
  no_dangling_likes db ∧ like_pairs_unique db ∧ primary_keys db.

(** ** Sample data

    The scenario of the testable properties: user1 posts "hello", user2
    posts the empty text, user2 likes the first post. *)
Definition sample_db : DB :=
  step (mkEnv "9a3f" 30) (POST_like "0c1d" "Bearer user2")
    (step (mkEnv "7e2b" 20) (POST_posts "Bearer user2" (PostCreate.mk ""))
       (step (mkEnv "0c1d" 10) (POST_posts "Bearer user1" (PostCreate.mk "hello"))
          empty_db)).

Definition user1 : User.t := User.mk "1" "user1".
Definition user2 : User.t := User.mk "2" "user2".

(** * Verification *)

(** ** Running the session monad *)

Lemma run_ret {A} (a : A) db : run (ret a) db = (Return a, db).
Proof. reflexivity. Qed.

Lemma run_raise {A} c d db : run (raise (A:=A) c d) db = (HTTPException c d, db).
Proof. reflexivity. Qed.

Lemma bind_Return {A B} (m : M A) (k : A → M B) s a s' :
  m s = (Return a, s') → bind m k s = k a s'.
Proof. intros E. unfold bind. by rewrite E. Qed.

Lemma count_likes_spec post_id s :
  count_likes post_id s = (Return (likes_count_of (working s) post_id), s).
Proof. reflexivity. Qed.

(** A dependency that fails ends the request; one that returns hands its
    value to the handler. *)
Lemma run_lift_bind {A B} (o : outcome A) (k : A → M B) db :
  run (bind (lift o) k) db =
    match o with
    | Return a => run (k a) db
    | HTTPException c d => (HTTPException c d, db)
    | Unhandled e => (Unhandled e, db)
    end.
Proof. unfold run, bind, lift. by destruct o. Qed.

(** The route wraps what its handler returns and passes its errors on. *)
Lemma run_bind_ret_Return {A B} (m : M A) (f : A → B) db a db' :
  run m db = (Return a, db') → run (bind m (λ x, ret (f x))) db = (Return (f a), db').
Proof.
  unfold run, bind, ret. destruct (m (open_session db)) as [[a'|c d|e] s]; [|done..].
  by intros [= <- <-].
Qed.

(** ** Listings *)

Section Listing.

Lemma for_post_in_spec rows result s :
  for_post_in rows result s = (Return (result ++ (to_Post (working s) <$> rows))%list, s).
Proof.
  revert result. induction rows as [|post rows IH]; intros result; simpl.
  - unfold ret. by rewrite app_nil_r.
  - erewrite bind_Return by apply count_likes_spec.
    rewrite IH. by rewrite <- app_assoc.
Qed.

Lemma insert_desc_Permutation p rows : insert_desc p rows ≡ₚ p :: rows.
Proof.
  induction rows as [|q rows IH]; simpl; [done|].
  case_decide; [done|]. rewrite IH. apply Permutation_swap.
Qed.

Lemma order_by_timestamp_desc_Permutation rows :
  order_by_timestamp_desc rows ≡ₚ rows.
Proof.
  induction rows as [|p rows IH]; simpl; [done|].
  by rewrite insert_desc_Permutation, IH.
Qed.

Lemma insert_desc_sorted p rows :
  StronglySorted newer rows → StronglySorted newer (insert_desc p rows).
Proof.
  induction 1 as [|q rows Hs IH Hq]; simpl.
  - repeat constructor.
  - case_decide as Hle.
    + constructor; [by constructor|].
      constructor; [done|].
      eapply Forall_impl; [exact Hq|]. unfold newer. intros r Hr. simpl in Hr. lia.
    + constructor; [done|].
      rewrite insert_desc_Permutation. constructor; [|done].
      unfold newer. lia.
Qed.

Lemma order_by_timestamp_desc_sorted rows :
  StronglySorted newer (order_by_timestamp_desc rows).
Proof.
  induction rows as [|p rows IH]; simpl; [constructor|].
  by apply insert_desc_sorted.
Qed.

(** A row at least as new as all the others goes to the front. *)
Lemma insert_desc_front p rows :
  Forall (newer p) rows → insert_desc p rows = p :: rows.
Proof.
  destruct 1 as [|q rows Hq _]; simpl; [done|].
  by rewrite decide_True.
Qed.

(** Sorting keeps rows of equal timestamp in table order, so a WHERE clause
    may be applied before or after the ORDER BY. *)
Lemma insert_desc_filter (P : PostDB.t → Prop) `{!∀ x, Decision (P x)} p rows :
  StronglySorted newer rows →
  filter P (insert_desc p rows) =
    if decide (P p) then insert_desc p (filter P rows) else filter P rows.
Proof.
  induction 1 as [|q rows Hs IH Hq]; simpl.
  - rewrite filter_cons, filter_nil. by case_decide.
  - destruct (decide (PostDB.timestamp q ≤ PostDB.timestamp p)) as [Hle|Hgt].
    + rewrite (filter_cons _ p). case_decide; [|done].
      rewrite insert_desc_front; [done|].
      apply Forall_forall. intros r [_ Hr]%list_elem_of_filter.
      apply elem_of_cons in Hr as [->|Hr]; [done|].
      rewrite Forall_forall in Hq. specialize (Hq r Hr).
      unfold newer in *. lia.
    + rewrite !(filter_cons _ q), IH.
      destruct (decide (P p)), (decide (P q)); simpl; try done.
      by rewrite decide_False.
Qed.

Lemma order_by_timestamp_desc_filter (P : PostDB.t → Prop) `{!∀ x, Decision (P x)} rows :
  order_by_timestamp_desc (filter P rows) = filter P (order_by_timestamp_desc rows).
Proof.
  induction rows as [|p rows IH]; simpl; [done|].
  rewrite insert_desc_filter by apply order_by_timestamp_desc_sorted.
  rewrite filter_cons. case_decide; simpl; by rewrite IH.
Qed.

Lemma to_Post_sorted db rows :
  StronglySorted newer rows → StronglySorted newer_or_same (to_Post db <$> rows).
Proof.
  induction 1 as [|q rows Hs IH Hq]; simpl; constructor; [done|].
  by apply Forall_fmap.
Qed.

Lemma run_list_posts db :
  run list_posts db = (Return (to_Post db <$> order_by_timestamp_desc (posts db)), db).
Proof.
  unfold run, list_posts, bind, query_posts. simpl.
  by rewrite for_post_in_spec.
Qed.

Lemma run_get_user_posts username db :
  run (get_user_posts username) db =
    (Return (to_Post db <$> order_by_timestamp_desc
               (filter (λ p, PostDB.owner_username p = username) (posts db))), db).
Proof.
  unfold run, get_user_posts, bind, query_posts. simpl.
  by rewrite for_post_in_spec.
Qed.

Lemma filter_to_Post db username (rows : list PostDB.t) :
  filter (λ p, Post.owner_username p = username) (to_Post db <$> rows) =
    to_Post db <$> filter (λ p, PostDB.owner_username p = username) rows.
Proof.
  induction rows as [|p rows IH]; [done|].
  rewrite fmap_cons, !filter_cons. simpl.
  case_decide; [rewrite fmap_cons|]; by rewrite IH.
Qed.

End Listing.

(** C6: [list_posts] answers with every post, newest first, and
    [get_user_posts] with exactly the posts of the given owner name in that
    same order; each post carries as [likes_count] the number of like rows
    naming it; neither raises, and a username nobody has gives the empty
    list. *)
Theorem listings_newest_first_with_likes_count (db : DB) :
  ∃ everything : list Post.t,
    run list_posts db = (Return everything, db) ∧
    everything ≡ₚ to_Post db <$> posts db ∧
    StronglySorted newer_or_same everything ∧
    (∀ p, p ∈ everything →
       Post.likes_count p =
         Z.of_nat (length (filter (λ l, LikeDB.post_id l = Post.id p) (likes db)))) ∧
    ∀ username, ∃ mine : list Post.t,
      run (get_user_posts username) db = (Return mine, db) ∧
      mine = filter (λ p, Post.owner_username p = username) everything ∧
      mine ≡ₚ to_Post db <$>
                filter (λ p, PostDB.owner_username p = username) (posts db) ∧
      StronglySorted newer_or_same mine ∧
      (username ∉ PostDB.owner_username <$> posts db → mine = []).
Proof.
  exists (to_Post db <$> order_by_timestamp_desc (posts db)).
  split; [apply run_list_posts|].
  split; [by rewrite order_by_timestamp_desc_Permutation|].
  split; [apply to_Post_sorted, order_by_timestamp_desc_sorted|].
  split.
  { intros p (row & -> & _)%list_elem_of_fmap. reflexivity. }
  intros username.
  eexists. split; [apply run_get_user_posts|].
  split; [by rewrite filter_to_Post, order_by_timestamp_desc_filter|].
  split; [by rewrite order_by_timestamp_desc_Permutation|].
  split; [apply to_Post_sorted, order_by_timestamp_desc_sorted|].
  intros Hnone.
  assert (filter (λ p, PostDB.owner_username p = username) (posts db) = []) as ->; [|done].
  apply elem_of_nil_inv. intros row [Hu Hrow]%list_elem_of_filter.
  apply Hnone, list_elem_of_fmap. eauto.
Qed.

Lemma listings_newest_first_with_likes_count_witness :
  ∃ everything : list Post.t,
    run list_posts sample_db = (Return everything, sample_db) ∧
    (Post.mk "0c1d" "hello" 10 "1" "user1" 1 ∈ everything) ∧
    run (get_user_posts "nobody") sample_db = (Return [], sample_db).
Proof.
  destruct (listings_newest_first_with_likes_count sample_db)
    as (everything & Hrun & Hperm & _ & _ & Hmine).
  exists everything. split; [exact Hrun|]. split.
  - rewrite Hperm. compute_done.
  - destruct (Hmine "nobody") as (mine & Hrun' & _ & _ & _ & Hempty).
    rewrite Hrun', Hempty; [reflexivity | compute_done].
Defined.

(** ** The auth resolver *)

Section Auth.

Lemma append_String c (s t : string) : (String c s ++ t)%string = String c (s ++ t)%string.
Proof. reflexivity. Qed.

Lemma append_assoc_snoc (w : string) c (u : string) :
  ((w ++ String c "") ++ u)%string = (w ++ String c u)%string.
Proof. induction w as [|a w IH]; [done|]. by rewrite !append_String, IH. Qed.

Lemma append_empty_r (w : string) : (w ++ "")%string = w.
Proof. induction w as [|a w IH]; [done|]. by rewrite append_String, IH. Qed.

(** A word without the separator, followed by the separator, is cut off
    as one item. *)
Lemma split_from_word sep (u w rest : string) :
  occurs sep u = false →
  split_from sep w (u ++ String sep rest) = (w ++ u)%string :: split_from sep "" rest.
Proof.
  revert w. induction u as [|c u IH]; intros w Hu.
  - change (("" ++ String sep rest)%string) with (String sep rest). simpl.
    by rewrite Ascii.eqb_refl, append_empty_r.
  - simpl in Hu. apply orb_false_iff in Hu as [Hc Hu].
    rewrite append_String. simpl. rewrite Hc, IH by done.
    by rewrite append_assoc_snoc.
Qed.

(** The last word runs to the end of the text. *)
Lemma split_from_last sep (u w : string) :
  occurs sep u = false → split_from sep w u = [(w ++ u)%string].
Proof.
  revert w. induction u as [|c u IH]; intros w Hu; simpl.
  - by rewrite append_empty_r.
  - simpl in Hu. apply orb_false_iff in Hu as [Hc Hu].
    by rewrite Hc, IH, append_assoc_snoc.
Qed.

Lemma split_from_cons sep w s : ∃ t ws, split_from sep w s = t :: ws.
Proof.
  revert w. induction s as [|c s IH]; intros w; simpl; [by eauto|].
  destruct (Ascii.eqb c sep); eauto.
Qed.

Lemma split_Bearer rest :
  split ("Bearer " ++ rest) " " = "Bearer" :: split rest " ".
Proof. exact (split_from_word " " "Bearer" "" rest eq_refl). Qed.

Lemma startswith_app (p rest : string) : startswith (p ++ rest) p = true.
Proof.
  unfold startswith. induction p as [|c p IH]; [by destruct rest|].
  rewrite append_String. simpl. by destruct (ascii_dec c c).
Qed.

Lemma startswith_inv (s p : string) :
  startswith s p = true → ∃ rest, s = (p ++ rest)%string.
Proof.
  unfold startswith. revert s. induction p as [|c p IH]; intros s H.
  - by exists s.
  - destruct s as [|c' s]; simpl in H; [done|].
    destruct (ascii_dec c c') as [<-|]; [|done].
    destruct (IH _ H) as [rest ->]. by exists rest.
Qed.

(** The seeded directory has two entries, each under its own username. *)
Lemma FAKE_USERS_DB_lookup (token : string) (d : UserData.t) :
  FAKE_USERS_DB !! token = Some d ↔
    (token = "user1" ∧ d = UserData.mk "1" "user1" "password1") ∨
    (token = "user2" ∧ d = UserData.mk "2" "user2" "password2").
Proof.
  unfold FAKE_USERS_DB. rewrite !lookup_insert, lookup_empty.
  destruct (decide ("user1" = token)) as [<-|Hne1].
  { split; [intros [= <-]; by left | by intros [[_ ->]|[[=] _]]]. }
  destruct (decide ("user2" = token)) as [<-|Hne2].
  { split; [intros [= <-]; by right | by intros [[[=] _]|[_ ->]]]. }
  split; [done | by intros [[-> _]|[-> _]]].
Qed.

Lemma FAKE_USERS_DB_username token d :
  FAKE_USERS_DB !! token = Some d → UserData.username d = token.
Proof. rewrite FAKE_USERS_DB_lookup. by intros [[-> ->]|[-> ->]]. Qed.

Lemma get_current_user_Bearer rest token words :
  split rest " " = token :: words →
  get_current_user ("Bearer " ++ rest) =
    match FAKE_USERS_DB !! token with
    | None => HTTPException HTTP_401_UNAUTHORIZED "Invalid token"
    | Some d => Return (User.mk (UserData.id d) (UserData.username d))
    end.
Proof.
  intros Hs. unfold get_current_user.
  by rewrite startswith_app, split_Bearer, Hs.
Qed.

End Auth.

(** C8: a header that does not begin with "Bearer " is refused with 401;
    one that does is cut at its spaces and the word after "Bearer" is the
    token: when the seeded directory has no such username the answer is
    401, otherwise it is that user's id and username. *)
Theorem get_current_user_resolves_token (authorization : string) :
  ((∀ rest, authorization ≠ "Bearer " ++ rest) →
     get_current_user authorization = HTTPException 401 "Invalid scheme") ∧
  (∀ rest, authorization = "Bearer " ++ rest →
     ∃ token words,
       split authorization " " = "Bearer" :: token :: words ∧
       (FAKE_USERS_DB !! token = None →
          get_current_user authorization = HTTPException 401 "Invalid token") ∧
       (∀ d, FAKE_USERS_DB !! token = Some d →
          UserData.username d = token ∧
          get_current_user authorization = Return (User.mk (UserData.id d) token))).
Proof.
  split.
  - intros Hno. unfold get_current_user.
    destruct (startswith authorization "Bearer ") eqn:Hp; [|done].
    apply startswith_inv in Hp as [rest ->]. by destruct (Hno rest).
  - intros rest ->.
    destruct (split_from_cons " " "" rest) as (token & words & Hs).
    exists token, words. rewrite split_Bearer.
    split; [by unfold split; rewrite Hs|].
    rewrite (get_current_user_Bearer rest token words Hs).
    split; [by intros ->|].
    intros d Hd. rewrite Hd.
    by rewrite (FAKE_USERS_DB_username _ _ Hd).
Qed.

Lemma get_current_user_resolves_token_witness :
  get_current_user "Basic user1" = HTTPException 401 "Invalid scheme" ∧
  get_current_user "Bearer nobody" = HTTPException 401 "Invalid token" ∧
  get_current_user "Bearer user2" = Return (User.mk "2" "user2").
Proof.
  split; [|split].
  - apply (get_current_user_resolves_token "Basic user1").
    intros rest H. discriminate H.
  - destruct (get_current_user_resolves_token "Bearer nobody") as [_ H].
    destruct (H "nobody" eq_refl) as (token & words & Hs & Hnone & _).
    vm_compute in Hs. injection Hs as <- <-.
    apply Hnone. vm_compute. reflexivity.
  - destruct (get_current_user_resolves_token "Bearer user2") as [_ H].
    destruct (H "user2" eq_refl) as (token & words & Hs & _ & Hsome).
    vm_compute in Hs. injection Hs as <- <-.
    apply (Hsome (UserData.mk "2" "user2" "password2")). vm_compute. reflexivity.
Defined.

(** C10: only the second word of the header counts.  Whatever follows a
    seeded username and a space is ignored, and two spaces after "Bearer"
    make the token empty, which the directory does not know. *)
Theorem get_current_user_second_word :
  (∀ u d anything, FAKE_USERS_DB !! u = Some d →
     get_current_user ("Bearer " ++ u ++ " " ++ anything) =
       Return (User.mk (UserData.id d) u)) ∧
  (∀ anything,
     get_current_user ("Bearer  " ++ anything) = HTTPException 401 "Invalid token").
Proof.
  split.
  - intros u d anything Hd.
    assert (occurs " " u = false) as Hu.
    { apply FAKE_USERS_DB_lookup in Hd as [[-> _]|[-> _]]; reflexivity. }
    rewrite (get_current_user_Bearer _ u (split anything " ")).
    + by rewrite Hd, (FAKE_USERS_DB_username _ _ Hd).
    + exact (split_from_word " " u "" anything Hu).
  - intros anything.
    change ("Bearer  " ++ anything)%string with ("Bearer " ++ (" " ++ anything))%string.
    by rewrite (get_current_user_Bearer _ "" (split anything " ")).
Qed.

Lemma get_current_user_second_word_witness :
  get_current_user "Bearer user1 user2 and more" = Return (User.mk "1" "user1").
Proof.
  apply (proj1 get_current_user_second_word "user1"
           (UserData.mk "1" "user1" "password1") "user2 and more").
  vm_compute. reflexivity.
Defined.

(** ** Login *)

(** C9, as the code has it: a payload that does not give a seeded username
    together with that user's password (a field missing, an unknown name, a
    wrong password) is refused with 401; one that does is answered with the
    username as [access_token] and the user's id and username. *)
Theorem login_checks_directory (form_data : gmap string string) :
  (¬ (∃ u d, form_data !! "username" = Some u ∧ FAKE_USERS_DB !! u = Some d ∧
             form_data !! "password" = Some (UserData.password d)) →
     login form_data = HTTPException 401 "Incorrect username or password") ∧
  (∀ u d, form_data !! "username" = Some u → FAKE_USERS_DB !! u = Some d →
          form_data !! "password" = Some (UserData.password d) →
     login form_data =
       Return (LoginResponse.mk u "bearer" (User.mk (UserData.id d) u))).
Proof.
  unfold login. split.
  - intros Hbad.
    destruct (form_data !! "username") as [u|] eqn:Hu; simpl; [|done].
    destruct (FAKE_USERS_DB !! u) as [d|] eqn:Hd; [|done].
    case_decide as Hp; [done|].
    destruct Hbad. exists u, d. split_and!; [done..|].
    destruct (decide (Some (UserData.password d) = form_data !! "password"));
      [done | by destruct Hp].
  - intros u d -> Hd Hp. simpl. rewrite Hd, Hp.
    rewrite decide_False by (intros Hne; by apply Hne).
    by rewrite (FAKE_USERS_DB_username _ _ Hd).
Qed.

Lemma login_checks_directory_witness :
  login ∅ = HTTPException 401 "Incorrect username or password" ∧
  login (<["username" := "user1"]> (<["password" := "password1"]> ∅)) =
    Return (LoginResponse.mk "user1" "bearer" (User.mk "1" "user1")).
Proof.
  split.
  - apply (login_checks_directory ∅).
    intros (u & d & Hu & _). vm_compute in Hu. discriminate Hu.
  - apply (proj2 (login_checks_directory _) "user1"
             (UserData.mk "1" "user1" "password1")); vm_compute; reflexivity.
Defined.

(** C9 as the claim words it does not hold: a payload without fields and one
    with a wrong password are both answered with 401, not 400. *)
Lemma login_bad_payload_is_not_400 :
  status_of 200 (login ∅) ≠ HTTP_400_BAD_REQUEST ∧
  status_of 200 (login (<["username" := "user1"]> (<["password" := "letmein"]> ∅)))
    ≠ HTTP_400_BAD_REQUEST.
Proof. split; vm_compute; discriminate. Qed.

(** ** Queries: [filter(...).first()] *)

Section First.
Context {A : Type} (P : A → Prop) `{!∀ x, Decision (P x)}.

Lemma first_None (rows : list A) :
  head (filter P rows) = None ↔ ∀ x, x ∈ rows → ¬ P x.
Proof.
  rewrite head_None. split.
  - intros Hnil x Hx HP. by apply (filter_nil_not_elem_of P rows x).
  - intros Hno. apply elem_of_nil_inv. intros x [HP Hx]%list_elem_of_filter.
    by apply (Hno x).
Qed.

Lemma first_Some (rows : list A) x :
  head (filter P rows) = Some x → x ∈ rows ∧ P x.
Proof.
  intros Hx%head_Some_elem_of. by apply list_elem_of_filter in Hx as [? ?].
Qed.

Lemma first_is_Some (rows : list A) x :
  x ∈ rows → P x → ∃ y, head (filter P rows) = Some y.
Proof.
  intros Hx HP. destruct (head (filter P rows)) as [y|] eqn:E; [by eauto|].
  rewrite first_None in E. by destruct (E x).
Qed.

End First.

(** A key column without repetition names at most one row. *)
Lemma NoDup_key_inj {A K} (key : A → K) (rows : list A) x y :
  NoDup (key <$> rows) → x ∈ rows → y ∈ rows → key x = key y → x = y.
Proof.
  induction rows as [|r rows IH]; [by intros _ ?%elem_of_nil|].
  rewrite fmap_cons, NoDup_cons, !elem_of_cons.
  intros [Hr Hnd] [->|Hx] [->|Hy] Hk; [done| | |by apply IH].
  - destruct Hr. rewrite Hk. by apply list_elem_of_fmap_2.
  - destruct Hr. rewrite <- Hk. by apply list_elem_of_fmap_2.
Qed.

Lemma first_by_key {A K} `{EqDecision K} (key : A → K) (rows : list A) x :
  NoDup (key <$> rows) → x ∈ rows →
  head (filter (λ y, key y = key x) rows) = Some x.
Proof.
  intros Hnd Hx.
  destruct (first_is_Some (λ y, key y = key x) rows x Hx eq_refl) as [y Hy].
  rewrite Hy. f_equal.
  apply first_Some in Hy as [Hy Hk]. by apply (NoDup_key_inj key rows).
Qed.

(** Two WHERE clauses that agree on the rows of a table select the same
    rows. *)
Lemma filter_ext_elem_of {A} (P Q : A → Prop)
    `{!∀ x, Decision (P x), !∀ x, Decision (Q x)} (rows : list A) :
  (∀ x, x ∈ rows → P x ↔ Q x) → filter P rows = filter Q rows.
Proof.
  induction rows as [|r rows IH]; intros Hiff; [done|].
  rewrite !filter_cons.
  rewrite IH by (intros x Hx; apply Hiff; by right).
  apply decide_ext, Hiff. by left.
Qed.

(** Deleting by a key that names one row deletes that row. *)
Lemma filter_key_ne {A K} `{EqDecision K} `{EqDecision A}
    (key : A → K) (rows : list A) x :
  NoDup (key <$> rows) → x ∈ rows →
  filter (λ y, key y ≠ key x) rows = filter (λ y, y ≠ x) rows.
Proof.
  intros Hnd Hx. apply filter_ext_elem_of.
  intros y Hy. split; [congruence|].
  intros Hne Hk. apply Hne. by apply (NoDup_key_inj key rows).
Qed.

(** ** The handlers, one request at a time *)

Lemma run_delete_post post_id current_user db :
  run (delete_post post_id current_user) db =
    match head (filter (λ p, PostDB.id p = post_id) (posts db)) with
    | None => (HTTPException 404 "Post not found", db)
    | Some post =>
        if decide (PostDB.owner_id post ≠ User.id current_user) then
          (HTTPException 403 "Not authorized to delete this post", db)
        else
          (Return tt,
           mkDB (filter (λ p, PostDB.id p ≠ post_id) (posts db))
                (filter (λ l, LikeDB.post_id l ≠ post_id) (likes db)))
    end.
Proof.
  unfold run, delete_post, bind, query_posts. simpl.
  destruct (head _) as [post|] eqn:E; [|done].
  apply first_Some in E as [_ <-].
  by case_decide.
Qed.

Lemma observed_delete_post post_id current_user db :
  observed (delete_post post_id current_user) db =
    match (run (delete_post post_id current_user) db).1 with
    | Return _ => [(run (delete_post post_id current_user) db).2]
    | _ => []
    end.
Proof.
  unfold observed, run, delete_post, bind, query_posts. simpl.
  destruct (head _) as [post|] eqn:E; [|done].
  by case_decide.
Qed.

Lemma run_like_post post_id current_user db :
  run (like_post post_id current_user) db =
    match head (filter (λ p, PostDB.id p = post_id) (posts db)) with
    | None => (HTTPException 404 "Post not found", db)
    | Some _ =>
        match head (filter (λ l, LikeDB.post_id l = post_id ∧
                                 LikeDB.user_id l = User.id current_user) (likes db)) with
        | Some _ => (HTTPException 400 "Already liked this post", db)
        | None =>
            (Return "Post liked successfully",
             mkDB (posts db)
                  (likes db ++
                     [LikeDB.mk (next_rowid (likes db)) (User.id current_user) post_id]))
        end
    end.
Proof.
  unfold run, like_post, bind, query_posts, query_likes. simpl.
  destruct (head _) as [post|]; [|done]. simpl.
  by destruct (head _).
Qed.

Lemma run_unlike_post post_id current_user db :
  run (unlike_post post_id current_user) db =
    match head (filter (λ p, PostDB.id p = post_id) (posts db)) with
    | None => (HTTPException 404 "Post not found", db)
    | Some _ =>
        match head (filter (λ l, LikeDB.post_id l = post_id ∧
                                 LikeDB.user_id l = User.id current_user) (likes db)) with
        | None => (HTTPException 400 "Post not liked", db)
        | Some like =>
            (Return "Post unliked successfully",
             mkDB (posts db) (filter (λ l, LikeDB.id l ≠ LikeDB.id like) (likes db)))
        end
    end.
Proof.
  unfold run, unlike_post, bind, query_posts, query_likes. simpl.
  destruct (head _) as [post|]; [|done]. simpl.
  by destruct (head _).
Qed.

Lemma run_create_post uuid now post_data current_user db :
  run (create_post uuid now post_data current_user) db =
    if decide (uuid ∈ PostDB.id <$> posts db) then (Unhandled IntegrityError, db)
    else
      (Return (Post.mk uuid (PostCreate.text post_data) now
                 (User.id current_user) (User.username current_user) 0),
       mkDB (posts db ++ [PostDB.mk uuid (PostCreate.text post_data) now
                            (User.id current_user) (User.username current_user)])
            (likes db)).
Proof.
  unfold run, create_post, bind, add_post. simpl.
  case_decide as Hin; [done|]. simpl.
  unfold refresh. simpl. rewrite filter_app.
  assert (filter (λ p, PostDB.id p = uuid) (posts db) = []) as ->.
  { apply elem_of_nil_inv. intros p [Hp Hel]%list_elem_of_filter.
    apply Hin, list_elem_of_fmap. eauto. }
  rewrite filter_cons_True by done. done.
Qed.

Lemma post_absent (post_id : string) (rows : list PostDB.t) :
  post_id ∉ PostDB.id <$> rows →
  head (filter (λ p, PostDB.id p = post_id) rows) = None.
Proof.
  intros Hno. apply first_None. intros p Hp Hid.
  apply Hno, list_elem_of_fmap. eauto.
Qed.

Lemma post_present (post_id : string) (rows : list PostDB.t) :
  post_id ∈ PostDB.id <$> rows →
  ∃ post, head (filter (λ p, PostDB.id p = post_id) rows) = Some post.
Proof.
  intros (p & -> & Hp)%list_elem_of_fmap.
  by apply (first_is_Some _ rows p).
Qed.

(** C2: deleting answers 404 when no post has the id and 403 when the post
    belongs to somebody else, and the database stays as it was; for the
    owner the post and the likes that name it are gone and the route, whose
    status code is 204, answers without a body.  Each case is stated of the
    handler and of the DELETE route called with a header that resolves to
    the requester. *)
Theorem delete_post_checks_then_deletes
    (db : DB) (post_id : string) (requester : User.t) :
  let r := run (delete_post post_id requester) db in
  let answer := λ env authorization,
    run (app env (DELETE_post post_id authorization)) db in
  let code := λ env authorization,
    status_of (route_status (DELETE_post post_id authorization))
      (answer env authorization).1 in
  (post_id ∉ PostDB.id <$> posts db →
     r = (HTTPException 404 "Post not found", db) ∧
     (∀ env authorization, get_current_user authorization = Return requester →
        answer env authorization = (HTTPException 404 "Post not found", db) ∧
        code env authorization = 404)) ∧
  (∀ post, NoDup (PostDB.id <$> posts db) →
     post ∈ posts db → PostDB.id post = post_id →
     (User.id requester ≠ PostDB.owner_id post →
        r = (HTTPException 403 "Not authorized to delete this post", db) ∧
        (∀ env authorization, get_current_user authorization = Return requester →
           answer env authorization =
             (HTTPException 403 "Not authorized to delete this post", db) ∧
           code env authorization = 403)) ∧
     (User.id requester = PostDB.owner_id post →
        r = (Return tt,
             mkDB (filter (λ p, PostDB.id p ≠ post_id) (posts db))
                  (filter (λ l, LikeDB.post_id l ≠ post_id) (likes db))) ∧
        (∀ env authorization, get_current_user authorization = Return requester →
           answer env authorization = (Return NoContent, r.2) ∧
           code env authorization = 204) ∧
        (post_id ∉ PostDB.id <$> posts (r.2)) ∧
        (∀ l, l ∈ likes (r.2) → LikeDB.post_id l ≠ post_id) ∧
        (∀ p, p ∈ posts db → PostDB.id p ≠ post_id → p ∈ posts (r.2)) ∧
        (∀ l, l ∈ likes db → LikeDB.post_id l ≠ post_id → l ∈ likes (r.2)))).
Proof.
  intros r answer code.
  assert (∀ env authorization o db',
            get_current_user authorization = Return requester →
            r = (o, db') →
            answer env authorization =
              (match o with
               | Return _ => Return NoContent
               | HTTPException c d => HTTPException c d
               | Unhandled e => Unhandled e
               end, db')) as Hroute.
  { intros env authorization o db' Hu Hr. subst answer r. simpl.
    rewrite run_lift_bind, Hu. unfold run, bind, ret in *.
    destruct (delete_post post_id requester (open_session db)) as [[[]|c d|e] s];
      by injection Hr as <- <-. }
  subst code. simpl. subst r. revert Hroute. rewrite run_delete_post. split.
  - intros Hno. revert Hroute. rewrite post_absent by done. intros Hroute.
    split; [done|]. intros env authorization Hu.
    by rewrite (Hroute env authorization _ _ Hu eq_refl).
  - intros post Hnd Hpost <-. revert Hroute.
    rewrite (first_by_key PostDB.id) by done.
    split; intros Howner; revert Hroute.
    + rewrite decide_True by congruence. intros Hroute.
      split; [done|]. intros env authorization Hu.
      by rewrite (Hroute env authorization _ _ Hu eq_refl).
    + rewrite decide_False by (intros Hne; by apply Hne). simpl. intros Hroute.
      split_and!; [done| | | | |].
      * intros env authorization Hu.
        by rewrite (Hroute env authorization _ _ Hu eq_refl).
      * intros (p & Hid & [Hne _]%list_elem_of_filter)%list_elem_of_fmap. by apply Hne.
      * by intros l [Hne _]%list_elem_of_filter.
      * intros p Hp Hne. by apply list_elem_of_filter.
      * intros l Hl Hne. by apply list_elem_of_filter.
Qed.

(** The rowid of a new like is above all the rowids in use. *)
Lemma next_rowid_above (rows : list LikeDB.t) l :
  l ∈ rows → LikeDB.id l < next_rowid rows.
Proof.
  unfold next_rowid. induction rows as [|r rows IH]; [by intros ?%elem_of_nil|].
  rewrite elem_of_cons, fmap_cons. simpl. intros [->|Hl]; [lia|].
  specialize (IH Hl). lia.
Qed.

Lemma next_rowid_unused (rows : list LikeDB.t) :
  next_rowid rows ∉ LikeDB.id <$> rows.
Proof.
  intros (l & Hid & Hl)%list_elem_of_fmap.
  apply next_rowid_above in Hl. lia.
Qed.

(** The like handlers, case by case. *)

Lemma like_lookup_None (user : User.t) (post_id : string) (rows : list LikeDB.t) :
  (∀ l, l ∈ rows →
        ¬ (LikeDB.user_id l = User.id user ∧ LikeDB.post_id l = post_id)) →
  head (filter (λ l, LikeDB.post_id l = post_id ∧ LikeDB.user_id l = User.id user)
          rows) = None.
Proof.
  intros Hno. apply first_None. intros l Hl [Hp Hu]. by apply (Hno l).
Qed.

Lemma like_lookup_Some (user : User.t) (post_id : string) (rows : list LikeDB.t) l :
  l ∈ rows → LikeDB.user_id l = User.id user → LikeDB.post_id l = post_id →
  ∃ found,
    head (filter (λ l, LikeDB.post_id l = post_id ∧ LikeDB.user_id l = User.id user)
            rows) = Some found.
Proof.
  intros Hl Hu Hp.
  exact (first_is_Some
           (λ l, LikeDB.post_id l = post_id ∧ LikeDB.user_id l = User.id user)
           rows l Hl (conj Hp Hu)).
Qed.

Lemma like_post_again db post_id user l :
  post_id ∈ PostDB.id <$> posts db →
  l ∈ likes db → LikeDB.user_id l = User.id user → LikeDB.post_id l = post_id →
  run (like_post post_id user) db = (HTTPException 400 "Already liked this post", db).
Proof.
  intros [post Hpost]%post_present Hl Hu Hp.
  destruct (like_lookup_Some user post_id (likes db) l Hl Hu Hp) as [found Hfound].
  by rewrite run_like_post, Hpost, Hfound.
Qed.

Lemma like_post_first db post_id user :
  post_id ∈ PostDB.id <$> posts db →
  (∀ l, l ∈ likes db →
        ¬ (LikeDB.user_id l = User.id user ∧ LikeDB.post_id l = post_id)) →
  run (like_post post_id user) db =
    (Return "Post liked successfully",
     mkDB (posts db)
          (likes db ++ [LikeDB.mk (next_rowid (likes db)) (User.id user) post_id])).
Proof.
  intros [post Hpost]%post_present Hno.
  by rewrite run_like_post, Hpost, like_lookup_None.
Qed.

Lemma unlike_post_never_liked db post_id user :
  post_id ∈ PostDB.id <$> posts db →
  (∀ l, l ∈ likes db →
        ¬ (LikeDB.user_id l = User.id user ∧ LikeDB.post_id l = post_id)) →
  run (unlike_post post_id user) db = (HTTPException 400 "Post not liked", db).
Proof.
  intros [post Hpost]%post_present Hno.
  by rewrite run_unlike_post, Hpost, like_lookup_None.
Qed.

Lemma unlike_post_liked db post_id user like :
  post_id ∈ PostDB.id <$> posts db →
  NoDup (LikeDB.id <$> likes db) → like_pairs_unique db →
  like ∈ likes db → LikeDB.user_id like = User.id user →
  LikeDB.post_id like = post_id →
  run (unlike_post post_id user) db =
    (Return "Post unliked successfully",
     mkDB (posts db) (filter (λ l, l ≠ like) (likes db))).
Proof.
  intros [post Hpost]%post_present Hids Hpairs Hlike Hu Hp.
  destruct (like_lookup_Some user post_id (likes db) like Hlike Hu Hp)
    as [found Hfound].
  rewrite run_unlike_post, Hpost, Hfound.
  apply first_Some in Hfound as [Hfound [Hfp Hfu]].
  assert (found = like) as ->.
  { apply (NoDup_key_inj (λ l, (LikeDB.user_id l, LikeDB.post_id l)) (likes db));
      [done..|]. simpl. congruence. }
  by rewrite (filter_key_ne LikeDB.id).
Qed.

(** Once the one like of a user on a post is deleted, none is left. *)
Lemma no_like_left db post_id user like l :
  like_pairs_unique db → like ∈ likes db →
  LikeDB.user_id like = User.id user → LikeDB.post_id like = post_id →
  l ∈ filter (λ l, l ≠ like) (likes db) →
  ¬ (LikeDB.user_id l = User.id user ∧ LikeDB.post_id l = post_id).
Proof.
  intros Hpairs Hlike Hu Hp [Hne Hl]%list_elem_of_filter [Hlu Hlp]. apply Hne.
  apply (NoDup_key_inj (λ l, (LikeDB.user_id l, LikeDB.post_id l)) (likes db));
    [done..|]. simpl. congruence.
Qed.

(** C3: liking answers 404 when the post is not there, whatever the likes
    table holds; 400 when the post is there and the user already likes it;
    and otherwise appends one row, the pair (user, post) under a rowid no
    like has yet, and succeeds.  On a table whose rowids lie between 1 and
    2^63 - 2 that rowid is one more than the largest in use, 1 in an empty
    table. *)
Theorem like_post_checks_then_inserts
    (db : DB) (post_id : string) (user : User.t) :
  let r := run (like_post post_id user) db in
  (post_id ∉ PostDB.id <$> posts db →
     r = (HTTPException 404 "Post not found", db)) ∧
  (post_id ∈ PostDB.id <$> posts db →
     ((∃ l, l ∈ likes db ∧ LikeDB.user_id l = User.id user ∧
            LikeDB.post_id l = post_id) →
        r = (HTTPException 400 "Already liked this post", db)) ∧
     ((∀ l, l ∈ likes db →
            ¬ (LikeDB.user_id l = User.id user ∧ LikeDB.post_id l = post_id)) →
        ∃ like,
          r = (Return "Post liked successfully",
               mkDB (posts db) (likes db ++ [like])) ∧
          LikeDB.user_id like = User.id user ∧
          LikeDB.post_id like = post_id ∧
          (LikeDB.id like ∉ LikeDB.id <$> likes db) ∧
          ((∀ l, l ∈ likes db → 1 ≤ LikeDB.id l < 2 ^ 63 - 1) →
             LikeDB.id like = 1 + foldr Z.max 0 (LikeDB.id <$> likes db) ∧
             1 ≤ LikeDB.id like ≤ 2 ^ 63 - 1 ∧
             (likes db = [] → LikeDB.id like = 1) ∧
             (∀ l, l ∈ likes db → LikeDB.id l < LikeDB.id like)))).
Proof.
  intros r. subst r. split.
  - intros Hno. by rewrite run_like_post, post_absent.
  - intros Hpost. split.
    + intros (l & Hl & Hu & Hp). by apply (like_post_again db post_id user l).
    + intros Hnew.
      exists (LikeDB.mk (next_rowid (likes db)) (User.id user) post_id).
      split; [by apply like_post_first|]. simpl.
      split_and!; [done | done | apply next_rowid_unused |].
      intros Hrange. split; [done|].
      assert (∀ l, l ∈ likes db → LikeDB.id l < next_rowid (likes db)) as Habove
        by (intros l; apply next_rowid_above).
      split_and!; [| |by intros -> |done].
      * unfold next_rowid.
        assert (0 ≤ foldr Z.max 0 (LikeDB.id <$> likes db)); [|lia].
        clear. induction (likes db) as [|l ls IH]; [done|].
        rewrite fmap_cons. simpl. lia.
      * unfold next_rowid.
        assert (foldr Z.max 0 (LikeDB.id <$> likes db) < 2 ^ 63 - 1); [|lia].
        clear Habove Hnew Hpost. induction (likes db) as [|l ls IH]; [done|].
        rewrite fmap_cons. simpl.
        pose proof (Hrange l ltac:(by left)).
        specialize (IH ltac:(intros x Hx; apply Hrange; by right)). lia.
Qed.

(** C4: unliking answers 404 when the post is not there, whatever the likes
    table holds; 400 when the post is there and the user has no like on it;
    and otherwise deletes the user's like row, the only one, and succeeds. *)
Theorem unlike_post_checks_then_removes
    (db : DB) (post_id : string) (user : User.t) :
  let r := run (unlike_post post_id user) db in
  (post_id ∉ PostDB.id <$> posts db →
     r = (HTTPException 404 "Post not found", db)) ∧
  (post_id ∈ PostDB.id <$> posts db →
     ((∀ l, l ∈ likes db →
            ¬ (LikeDB.user_id l = User.id user ∧ LikeDB.post_id l = post_id)) →
        r = (HTTPException 400 "Post not liked", db)) ∧
     (∀ like, NoDup (LikeDB.id <$> likes db) → like_pairs_unique db →
        like ∈ likes db → LikeDB.user_id like = User.id user →
        LikeDB.post_id like = post_id →
        r = (Return "Post unliked successfully",
             mkDB (posts db) (filter (λ l, l ≠ like) (likes db))) ∧
        (∀ l, l ∈ likes (r.2) →
              ¬ (LikeDB.user_id l = User.id user ∧ LikeDB.post_id l = post_id)))).
Proof.
  intros r. subst r. split.
  - intros Hno. by rewrite run_unlike_post, post_absent.
  - intros Hpost. split; [by apply unlike_post_never_liked|].
    intros like Hids Hpairs Hlike Hu Hp.
    rewrite (unlike_post_liked db post_id user like) by done.
    split; [done|]. simpl. intros l Hl.
    by apply (no_like_left db post_id user like).
Qed.

Lemma sample_db_eq :
  sample_db =
    mkDB [PostDB.mk "0c1d" "hello" 10 "1" "user1"; PostDB.mk "7e2b" "" 20 "2" "user2"]
         [LikeDB.mk 1 "2" "0c1d"].
Proof. vm_compute. reflexivity. Qed.

Lemma delete_post_checks_then_deletes_witness :
  run (delete_post "ffff" user1) sample_db =
    (HTTPException 404 "Post not found", sample_db) ∧
  run (delete_post "0c1d" user2) sample_db =
    (HTTPException 403 "Not authorized to delete this post", sample_db) ∧
  run (delete_post "0c1d" user1) sample_db =
    (Return tt, mkDB [PostDB.mk "7e2b" "" 20 "2" "user2"] []) ∧
  status_of (route_status (DELETE_post "0c1d" "Bearer user1"))
    (run (app (mkEnv "51aa" 40) (DELETE_post "0c1d" "Bearer user1")) sample_db).1 = 204.
Proof.
  split; [|split].
  - apply (delete_post_checks_then_deletes sample_db "ffff" user1). compute_done.
  - apply (proj2 (delete_post_checks_then_deletes sample_db "0c1d" user2)
             (PostDB.mk "0c1d" "hello" 10 "1" "user1")); compute_done.
  - destruct (proj2 (proj2 (delete_post_checks_then_deletes sample_db "0c1d" user1)
                       (PostDB.mk "0c1d" "hello" 10 "1" "user1")
                       ltac:(compute_done) ltac:(compute_done) eq_refl) eq_refl)
      as (Hr & Hroute & _).
    split.
    + rewrite Hr. vm_compute. reflexivity.
    + apply (Hroute (mkEnv "51aa" 40) "Bearer user1"). vm_compute. reflexivity.
Defined.

Lemma like_post_checks_then_inserts_witness :
  run (like_post "ffff" user2) sample_db =
    (HTTPException 404 "Post not found", sample_db) ∧
  run (like_post "0c1d" user2) sample_db =
    (HTTPException 400 "Already liked this post", sample_db) ∧
  run (like_post "0c1d" user1) sample_db =
    (Return "Post liked successfully",
     mkDB (posts sample_db) (likes sample_db ++ [LikeDB.mk 2 "1" "0c1d"])).
Proof.
  split; [|split].
  - apply (like_post_checks_then_inserts sample_db "ffff" user2). compute_done.
  - apply (like_post_checks_then_inserts sample_db "0c1d" user2); [compute_done|].
    exists (LikeDB.mk 1 "2" "0c1d"). split; [compute_done | done].
  - destruct (proj2 (proj2 (like_post_checks_then_inserts sample_db "0c1d" user1)
                       ltac:(compute_done)))
      as ([id u p] & Hr & Hu & Hp & _ & Hid).
    + rewrite sample_db_eq. intros l ->%list_elem_of_singleton [[=] _].
    + destruct Hid as [Hid _].
      * rewrite sample_db_eq. intros l ->%list_elem_of_singleton. simpl. lia.
      * simpl in Hu, Hp, Hid. subst u p id. rewrite Hr. vm_compute. reflexivity.
Defined.

Lemma unlike_post_checks_then_removes_witness :
  run (unlike_post "ffff" user2) sample_db =
    (HTTPException 404 "Post not found", sample_db) ∧
  run (unlike_post "0c1d" user1) sample_db =
    (HTTPException 400 "Post not liked", sample_db) ∧
  run (unlike_post "0c1d" user2) sample_db =
    (Return "Post unliked successfully", mkDB (posts sample_db) []).
Proof.
  split; [|split].
  - apply (unlike_post_checks_then_removes sample_db "ffff" user2). compute_done.
  - apply (unlike_post_checks_then_removes sample_db "0c1d" user1); [compute_done|].
    rewrite sample_db_eq. intros l ->%list_elem_of_singleton [[=] _].
  - rewrite (proj1 (proj2 (proj2 (unlike_post_checks_then_removes sample_db "0c1d" user2)
                             ltac:(compute_done))
                      (LikeDB.mk 1 "2" "0c1d") ltac:(compute_done) ltac:(compute_done)
                      ltac:(compute_done) eq_refl eq_refl)).
    vm_compute. reflexivity.
Defined.




(** ** What a request changes *)

Lemma run_bind_ret {A B} (m : M A) (f : A → B) db :
  (run (bind m (λ x, ret (f x))) db).2 = (run m db).2.
Proof. unfold run, bind, ret. by destruct (m (open_session db)) as [[a|c d|e] s]. Qed.

Lemma observed_lift_bind {A B} (o : outcome A) (k : A → M B) db :
  observed (bind (lift o) k) db =
    match o with
    | Return a => observed (k a) db
    | _ => []
    end.
Proof. unfold observed, bind, lift. by destruct o. Qed.

Lemma observed_bind_ret {A B} (m : M A) (f : A → B) db :
  observed (bind m (λ x, ret (f x))) db = observed m db.
Proof. unfold observed, bind, ret. by destruct (m (open_session db)) as [[a|c d|e] s]. Qed.

Lemma delete_post_changes post_id user db :
  changes db (run (delete_post post_id user) db).2.
Proof.
  rewrite run_delete_post. destruct (head _); [|constructor].
  case_decide; constructor.
Qed.

Lemma like_post_changes post_id user db :
  changes db (run (like_post post_id user) db).2.
Proof.
  rewrite run_like_post.
  destruct (head _) as [post|] eqn:Hpost; [|constructor].
  destruct (head (filter _ (likes db))) eqn:Hlike; [constructor|].
  apply changes_like_added.
  - apply first_Some in Hpost as [Hpost <-]. by apply list_elem_of_fmap_2.
  - exact (proj1 (first_None _ _) Hlike).
Qed.

Lemma unlike_post_changes post_id user db :
  changes db (run (unlike_post post_id user) db).2.
Proof.
  rewrite run_unlike_post. destruct (head _); [|constructor].
  destruct (head _); constructor.
Qed.

Lemma create_post_changes uuid now post_data user db :
  changes db (run (create_post uuid now post_data user) db).2.
Proof.
  rewrite run_create_post. case_decide; [constructor|].
  by apply changes_post_added.
Qed.

Lemma step_changes env req db : changes db (step env req db).
Proof.
  unfold step. destruct req; simpl.
  - rewrite run_lift_bind. destruct (login _); constructor.
  - rewrite run_bind_ret, run_list_posts. constructor.
  - rewrite run_lift_bind. destruct (get_current_user _); [|constructor..].
    rewrite run_bind_ret. apply create_post_changes.
  - rewrite run_lift_bind. destruct (get_current_user _); [|constructor..].
    rewrite run_bind_ret. apply delete_post_changes.
  - rewrite run_lift_bind. destruct (get_current_user _); [|constructor..].
    rewrite run_bind_ret. apply like_post_changes.
  - rewrite run_lift_bind. destruct (get_current_user _); [|constructor..].
    rewrite run_bind_ret. apply unlike_post_changes.
  - rewrite run_bind_ret, run_get_user_posts. constructor.
Qed.

(** ** The invariants *)

Lemma NoDup_fmap_filter {A K} (key : A → K) (P : A → Prop) `{!∀ x, Decision (P x)}
    (rows : list A) :
  NoDup (key <$> rows) → NoDup (key <$> filter P rows).
Proof.
  intros Hnd. apply (sublist_NoDup (key <$> filter P rows) (key <$> rows)); [done|].
  apply fmap_sublist, sublist_filter.
Qed.

Lemma changes_no_dangling_likes db db' :
  changes db db' → no_dangling_likes db → no_dangling_likes db'.
Proof.
  unfold no_dangling_likes.
  intros [|row Hrow|post_id|user_id post_id Hpost Hnew|like_id] Hinv l; simpl.
  - apply Hinv.
  - intros Hl. rewrite fmap_app, elem_of_app. left. by apply Hinv.
  - intros [Hne Hl]%list_elem_of_filter.
    apply Hinv, list_elem_of_fmap in Hl as (p & Hid & Hp).
    apply list_elem_of_fmap. exists p. split; [done|].
    apply list_elem_of_filter. split; [congruence|done].
  - rewrite elem_of_app, list_elem_of_singleton. intros [Hl| ->]; [by apply Hinv|done].
  - intros [_ Hl]%list_elem_of_filter. by apply Hinv.
Qed.

Lemma changes_like_pairs_unique db db' :
  changes db db' → like_pairs_unique db → like_pairs_unique db'.
Proof.
  unfold like_pairs_unique.
  intros [|row Hrow|post_id|user_id post_id Hpost Hnew|like_id] Hinv; simpl;
    [done|done|by apply NoDup_fmap_filter| |by apply NoDup_fmap_filter].
  rewrite fmap_app. apply NoDup_app. split; [done|]. split; [|apply NoDup_singleton].
  intros pair (l & -> & Hl)%list_elem_of_fmap [= Hu Hp]%list_elem_of_singleton.
  by apply (Hnew l).
Qed.

Lemma changes_primary_keys db db' :
  changes db db' → primary_keys db → primary_keys db'.
Proof.
  unfold primary_keys.
  intros [|row Hrow|post_id|user_id post_id Hpost Hnew|like_id] [Hposts Hlikes]; simpl.
  - done.
  - split; [|done]. rewrite fmap_app. apply NoDup_app.
    split; [done|]. split; [|apply NoDup_singleton].
    by intros id Hid ->%list_elem_of_singleton.
  - split; by apply NoDup_fmap_filter.
  - split; [done|]. rewrite fmap_app. apply NoDup_app.
    split; [done|]. split; [|apply NoDup_singleton].
    intros id Hid ->%list_elem_of_singleton. by apply (next_rowid_unused (likes db)).
  - split; [done|]. by apply NoDup_fmap_filter.
Qed.

Lemma changes_consistent db db' : changes db db' → consistent db → consistent db'.
Proof.
  intros Hch (Hd & Hu & Hk).
  split_and!; eauto using changes_no_dangling_likes, changes_like_pairs_unique,
    changes_primary_keys.
Qed.

Lemma empty_db_consistent : consistent empty_db.
Proof.
  split_and!.
  - by intros l ?%elem_of_nil.
  - constructor.
  - split; constructor.
Qed.

Lemma reachable_consistent db : reachable db → consistent db.
Proof.
  induction 1 as [|env req db _ IH].
  - apply empty_db_consistent.
  - eapply changes_consistent; [apply step_changes|done].
Qed.

(** ** One commit per request *)

Lemma observed_create_post uuid now post_data user db :
  observed (create_post uuid now post_data user) db = [] ∨
  observed (create_post uuid now post_data user) db =
    [(run (create_post uuid now post_data user) db).2].
Proof.
  unfold observed, run, create_post, bind, add_post. simpl.
  case_decide; [by left|]. right. simpl.
  unfold refresh. simpl. by destruct (head _).
Qed.

Lemma observed_like_post post_id user db :
  observed (like_post post_id user) db = [] ∨
  observed (like_post post_id user) db = [(run (like_post post_id user) db).2].
Proof.
  unfold observed, run, like_post, bind, query_posts, query_likes. simpl.
  destruct (head _); [|by left]. simpl.
  destruct (head _); [by left|by right].
Qed.

Lemma observed_unlike_post post_id user db :
  observed (unlike_post post_id user) db = [] ∨
  observed (unlike_post post_id user) db = [(run (unlike_post post_id user) db).2].
Proof.
  unfold observed, run, unlike_post, bind, query_posts, query_likes. simpl.
  destruct (head _); [|by left]. simpl.
  destruct (head _); [by right|by left].
Qed.

Lemma observed_app env req db :
  observed (app env req) db = [] ∨ observed (app env req) db = [step env req db].
Proof.
  unfold step. destruct req; simpl.
  - rewrite observed_lift_bind. destruct (login _); by left.
  - left. rewrite observed_bind_ret. unfold observed, list_posts, bind, query_posts.
    simpl. by rewrite for_post_in_spec.
  - rewrite observed_lift_bind, run_lift_bind.
    destruct (get_current_user _); [|by left..].
    rewrite observed_bind_ret, run_bind_ret. apply observed_create_post.
  - rewrite observed_lift_bind, run_lift_bind.
    destruct (get_current_user _); [|by left..].
    rewrite observed_bind_ret, run_bind_ret, observed_delete_post.
    destruct (run (delete_post post_id a) db).1; auto.
  - rewrite observed_lift_bind, run_lift_bind.
    destruct (get_current_user _); [|by left..].
    rewrite observed_bind_ret, run_bind_ret. apply observed_like_post.
  - rewrite observed_lift_bind, run_lift_bind.
    destruct (get_current_user _); [|by left..].
    rewrite observed_bind_ret, run_bind_ret. apply observed_unlike_post.
  - left. rewrite observed_bind_ret. unfold observed, get_user_posts, bind, query_posts.
    simpl. by rewrite for_post_in_spec.
Qed.

(** ** The two invariants of the likes table *)

(** C1: in a database the application can reach no like names a missing
    post, and neither does any state a request makes visible; a delete that
    succeeds makes one state visible, in which the post and every like that
    names it are gone. *)
Theorem no_dangling_likes_observable (db : DB) :
  reachable db →
  no_dangling_likes db ∧
  (∀ env req db', db' ∈ observed (app env req) db → no_dangling_likes db') ∧
  ∀ post_id requester,
    (run (delete_post post_id requester) db).1 = Return tt →
    let db' := (run (delete_post post_id requester) db).2 in
    observed (delete_post post_id requester) db = [db'] ∧
    (post_id ∉ PostDB.id <$> posts db') ∧
    (∀ l, l ∈ likes db' → LikeDB.post_id l ≠ post_id) ∧
    no_dangling_likes db'.
Proof.
  intros (Hd & _ & _)%reachable_consistent.
  split; [done|]. split.
  - intros env req db'.
    destruct (observed_app env req db) as [-> | ->]; [by intros ?%elem_of_nil|].
    intros ->%list_elem_of_singleton.
    eapply changes_no_dangling_likes; [apply step_changes|done].
  - intros post_id requester Hok db'.
    split; [by rewrite observed_delete_post, Hok|].
    assert (no_dangling_likes db') as Hd'.
    { eapply changes_no_dangling_likes; [apply delete_post_changes|done]. }
    subst db'. revert Hok Hd'. rewrite run_delete_post.
    destruct (head _) as [post|]; [|done].
    case_decide; [done|]. simpl. intros _ Hd'. split_and!; [| |done].
    + intros (p & Hid & [Hne _]%list_elem_of_filter)%list_elem_of_fmap. by apply Hne.
    + by intros l [Hne _]%list_elem_of_filter.
Qed.

Lemma sample_db_reachable : reachable sample_db.
Proof. unfold sample_db. repeat constructor. Qed.

Lemma no_dangling_likes_observable_witness :
  no_dangling_likes sample_db ∧
  observed (delete_post "0c1d" user1) sample_db =
    [mkDB [PostDB.mk "7e2b" "" 20 "2" "user2"] []].
Proof.
  destruct (no_dangling_likes_observable sample_db sample_db_reachable)
    as (Hd & _ & Hdel).
  split; [exact Hd|].
  destruct (Hdel "0c1d" user1) as [-> _]; vm_compute; reflexivity.
Defined.

(** C5: no request can make a user like a post twice over, so in a reachable
    database every pair (user, post) has at most one like row.  There, for a
    post the user does not like yet: liking succeeds, liking again is
    refused with 400 and leaves the database as it is, and after unliking
    liking succeeds again. *)
Theorem one_like_per_user_and_post :
  (∀ db env req, like_pairs_unique db → like_pairs_unique (step env req db)) ∧
  ∀ db, reachable db →
    like_pairs_unique db ∧
    ∀ post_id user,
      post_id ∈ PostDB.id <$> posts db →
      (∀ l, l ∈ likes db →
            ¬ (LikeDB.user_id l = User.id user ∧ LikeDB.post_id l = post_id)) →
      let liked := run (like_post post_id user) db in
      let unliked := run (unlike_post post_id user) (liked.2) in
      liked.1 = Return "Post liked successfully" ∧
      like_pairs_unique (liked.2) ∧
      run (like_post post_id user) (liked.2) =
        (HTTPException 400 "Already liked this post", liked.2) ∧
      unliked.1 = Return "Post unliked successfully" ∧
      like_pairs_unique (unliked.2) ∧
      (run (like_post post_id user) (unliked.2)).1 = Return "Post liked successfully".
Proof.
  split.
  { intros db env req. apply changes_like_pairs_unique, step_changes. }
  intros db Hdb%reachable_consistent. split; [apply Hdb|].
  intros post_id user Hpost Hnew liked unliked.
  assert (consistent (liked.2)) as (_ & Hpairs & _ & Hids).
  { eapply changes_consistent; [apply like_post_changes|done]. }
  assert (like_pairs_unique (unliked.2)) as Hpairs'.
  { eapply changes_like_pairs_unique; [apply unlike_post_changes|done]. }
  subst unliked. revert Hpairs Hids Hpairs'. subst liked.
  rewrite like_post_first by done. simpl.
  set (like := LikeDB.mk (next_rowid (likes db)) (User.id user) post_id).
  set (db1 := mkDB (posts db) (likes db ++ [like])).
  intros Hpairs Hids.
  assert (like ∈ likes db1) as Hlike.
  { apply elem_of_app. right. by apply list_elem_of_singleton. }
  rewrite (like_post_again db1 post_id user like) by done.
  rewrite (unlike_post_liked db1 post_id user like) by done. simpl.
  intros Hpairs'. split_and!; [done..|].
  rewrite like_post_first; [done|done|]. simpl.
  intros l. by apply (no_like_left db1 post_id user like).
Qed.

Lemma one_like_per_user_and_post_witness :
  like_pairs_unique sample_db ∧
  (run (like_post "7e2b" user1) sample_db).1 = Return "Post liked successfully" ∧
  run (like_post "7e2b" user1) (run (like_post "7e2b" user1) sample_db).2 =
    (HTTPException 400 "Already liked this post",
     (run (like_post "7e2b" user1) sample_db).2).
Proof.
  destruct (proj2 one_like_per_user_and_post sample_db sample_db_reachable)
    as [Hpairs Hlike].
  split; [exact Hpairs|].
  destruct (Hlike "7e2b" user1) as (Hok & _ & Hagain & _).
  - compute_done.
  - rewrite sample_db_eq. intros l ->%list_elem_of_singleton [[=] _].
  - split; [exact Hok | exact Hagain].
Defined.

(** * Further properties of the handlers *)

(** ** The resolver and login together *)

Lemma get_current_user_cases (authorization : string) :
  (∃ u, get_current_user authorization = Return u ∧
        (u = User.mk "1" "user1" ∨ u = User.mk "2" "user2")) ∨
  (∃ d, get_current_user authorization = HTTPException 401 d).
Proof.
  unfold get_current_user.
  destruct (startswith authorization "Bearer ") eqn:Hp; simpl; [|by eauto].
  apply startswith_inv in Hp as [rest ->]. rewrite split_Bearer.
  destruct (split_from_cons " " "" rest) as (token & words & Hs).
  unfold split. rewrite Hs. simpl.
  destruct (FAKE_USERS_DB !! token) as [d|] eqn:Hd; [|by eauto].
  apply FAKE_USERS_DB_lookup in Hd as [[-> ->]|[-> ->]]; simpl; eauto.
Qed.

(** [authorization.split(" ")[1]] never fails: after the prefix test the
    list has two items at least.  So the resolver ends in a seeded identity
    or in a 401, never in an unhandled exception. *)
Theorem get_current_user_seeded_or_401 (authorization : string) :
  (∀ e, get_current_user authorization ≠ Unhandled e) ∧
  (∀ u, get_current_user authorization = Return u →
        u = User.mk "1" "user1" ∨ u = User.mk "2" "user2") ∧
  (∀ c d, get_current_user authorization = HTTPException c d → c = 401).
Proof.
  destruct (get_current_user_cases authorization) as [(u & -> & Hu)|(d & ->)].
  - split_and!; [done | by intros ? [= <-] | done].
  - split_and!; [done | done | by intros ? ? [= <- _]].
Qed.

Lemma get_current_user_seeded_or_401_witness :
  User.mk "2" "user2" = User.mk "1" "user1" ∨ User.mk "2" "user2" = User.mk "2" "user2".
Proof.
  apply (proj1 (proj2 (get_current_user_seeded_or_401 "Bearer user2 ignored"))).
  vm_compute. reflexivity.
Defined.

(** What [login] hands out works as a credential: the [access_token] it
    returns, sent as "Bearer <token>", resolves to the very identity the
    login response carries. *)
Theorem login_token_authenticates (form_data : gmap string string) r :
  login form_data = Return r →
  LoginResponse.token_type r = "bearer" ∧
  get_current_user ("Bearer " ++ LoginResponse.access_token r) =
    Return (LoginResponse.user r).
Proof.
  unfold login.
  destruct (form_data !! "username" ≫= _) as [d|] eqn:Hd; [|done].
  case_decide; [done|]. intros [= <-]. simpl. split; [done|].
  destruct (form_data !! "username") as [u|]; [|done]. simpl in Hd.
  apply FAKE_USERS_DB_lookup in Hd as [[-> ->]|[-> ->]]; vm_compute; reflexivity.
Qed.

Lemma login_token_authenticates_witness :
  get_current_user "Bearer user1" = Return (User.mk "1" "user1").
Proof.
  apply (login_token_authenticates
           (<["username" := "user1"]> (<["password" := "password1"]> ∅))
           (LoginResponse.mk "user1" "bearer" (User.mk "1" "user1"))).
  vm_compute. reflexivity.
Defined.

(** ** Requests that change nothing *)

(** Logging in and the two listings never write: the database stays as it
    is, nothing is committed, and the listings always answer with a list. *)
Theorem reading_routes_do_not_write (env : Env) (db : DB) :
  (∀ form_data,
     step env (POST_login form_data) db = db ∧
     observed (app env (POST_login form_data)) db = []) ∧
  ((∃ l, run (app env GET_posts) db = (Return (PostsJSON l), db)) ∧
   observed (app env GET_posts) db = []) ∧
  (∀ username,
     (∃ l, run (app env (GET_user_posts username)) db = (Return (PostsJSON l), db)) ∧
     observed (app env (GET_user_posts username)) db = []).
Proof.
  split_and!.
  - intros form_data. unfold step. simpl.
    rewrite run_lift_bind, observed_lift_bind. by destruct (login form_data).
  - eexists. apply run_bind_ret_Return, run_list_posts.
  - unfold app. rewrite observed_bind_ret.
    unfold observed, list_posts, bind, query_posts. simpl.
    by rewrite for_post_in_spec.
  - intros username. split.
    + eexists. apply run_bind_ret_Return, run_get_user_posts.
    + unfold app. rewrite observed_bind_ret.
      unfold observed, get_user_posts, bind, query_posts. simpl.
      by rewrite for_post_in_spec.
Qed.

(** The credential is checked before the handler looks at anything: with a
    header the resolver refuses, each guarded route answers with the
    resolver's error, whatever the post id or the tables are, and the
    database stays as it is. *)
Theorem guarded_routes_authenticate_first
    (env : Env) (db : DB) (authorization : string) c d :
  get_current_user authorization = HTTPException c d →
  (∀ post_data,
     run (app env (POST_posts authorization post_data)) db = (HTTPException c d, db)) ∧
  (∀ post_id,
     run (app env (DELETE_post post_id authorization)) db = (HTTPException c d, db) ∧
     run (app env (POST_like post_id authorization)) db = (HTTPException c d, db) ∧
     run (app env (DELETE_like post_id authorization)) db = (HTTPException c d, db)).
Proof.
  intros Hauth. split; [intros post_data | intros post_id; split_and!];
    simpl; by rewrite run_lift_bind, Hauth.
Qed.

Lemma guarded_routes_authenticate_first_witness :
  run (app (mkEnv "51aa" 40) (DELETE_post "ffff" "Token user1")) sample_db =
    (HTTPException 401 "Invalid scheme", sample_db).
Proof.
  apply (guarded_routes_authenticate_first (mkEnv "51aa" 40) sample_db "Token user1").
  vm_compute. reflexivity.
Defined.

(** ** Requests that fail *)

Lemma run_bind_ret_fst {A B} (m : M A) (f : A → B) db :
  (run (bind m (λ x, ret (f x))) db).1 =
    match (run m db).1 with
    | Return a => Return (f a)
    | HTTPException c d => HTTPException c d
    | Unhandled e => Unhandled e
    end.
Proof. unfold run, bind, ret. by destruct (m (open_session db)) as [[a|c d|e] s]. Qed.

(** A handler that does not return has committed nothing. *)
Lemma create_post_failed uuid now post_data user db :
  (∀ a, (run (create_post uuid now post_data user) db).1 ≠ Return a) →
  (run (create_post uuid now post_data user) db).2 = db ∧
  observed (create_post uuid now post_data user) db = [].
Proof.
  rewrite run_create_post. unfold observed, create_post, bind, add_post. simpl.
  case_decide; [done|]. simpl. intros Hno. by destruct (Hno _ eq_refl).
Qed.

Lemma delete_post_failed post_id user db :
  (∀ a, (run (delete_post post_id user) db).1 ≠ Return a) →
  (run (delete_post post_id user) db).2 = db ∧
  observed (delete_post post_id user) db = [].
Proof.
  rewrite observed_delete_post, run_delete_post.
  destruct (head _); [|done]. case_decide; [done|].
  simpl. intros Hno. by destruct (Hno _ eq_refl).
Qed.

Lemma like_post_failed post_id user db :
  (∀ a, (run (like_post post_id user) db).1 ≠ Return a) →
  (run (like_post post_id user) db).2 = db ∧
  observed (like_post post_id user) db = [].
Proof.
  rewrite run_like_post. unfold observed, like_post, bind, query_posts, query_likes.
  simpl. destruct (head _); [|done]. simpl. destruct (head _); [done|].
  simpl. intros Hno. by destruct (Hno _ eq_refl).
Qed.

Lemma unlike_post_failed post_id user db :
  (∀ a, (run (unlike_post post_id user) db).1 ≠ Return a) →
  (run (unlike_post post_id user) db).2 = db ∧
  observed (unlike_post post_id user) db = [].
Proof.
  rewrite run_unlike_post. unfold observed, unlike_post, bind, query_posts, query_likes.
  simpl. destruct (head _); [|done]. simpl. destruct (head _); [|done].
  simpl. intros Hno. by destruct (Hno _ eq_refl).
Qed.

Lemma failed_bind_ret {A B} (m : M A) (f : A → B) db :
  (∀ b, (run (bind m (λ x, ret (f x))) db).1 ≠ Return b) →
  ∀ a, (run m db).1 ≠ Return a.
Proof.
  intros Hno a Ha. apply (Hno (f a)). by rewrite run_bind_ret_fst, Ha.
Qed.

(** No partial effects: a request that is answered with an error, whichever
    it is, leaves the database as it was and makes no state visible. *)
Theorem failed_request_changes_nothing (env : Env) (req : Request) (db : DB) :
  (∀ body, (run (app env req) db).1 ≠ Return body) →
  step env req db = db ∧ observed (app env req) db = [].
Proof.
  unfold step. destruct req; simpl.
  - rewrite run_lift_bind, observed_lift_bind. by destruct (login _).
  - rewrite (run_bind_ret_Return _ _ _ _ _ (run_list_posts db)).
    intros Hno. by destruct (Hno _ eq_refl).
  - rewrite run_lift_bind, observed_lift_bind.
    destruct (get_current_user _); [|done..].
    rewrite run_bind_ret, observed_bind_ret.
    intros Hno. eapply create_post_failed, failed_bind_ret, Hno.
  - rewrite run_lift_bind, observed_lift_bind.
    destruct (get_current_user _); [|done..].
    rewrite run_bind_ret, observed_bind_ret.
    intros Hno. eapply delete_post_failed, failed_bind_ret, Hno.
  - rewrite run_lift_bind, observed_lift_bind.
    destruct (get_current_user _); [|done..].
    rewrite run_bind_ret, observed_bind_ret.
    intros Hno. eapply like_post_failed, failed_bind_ret, Hno.
  - rewrite run_lift_bind, observed_lift_bind.
    destruct (get_current_user _); [|done..].
    rewrite run_bind_ret, observed_bind_ret.
    intros Hno. eapply unlike_post_failed, failed_bind_ret, Hno.
  - rewrite (run_bind_ret_Return _ _ _ _ _ (run_get_user_posts username db)).
    intros Hno. by destruct (Hno _ eq_refl).
Qed.

Lemma failed_request_changes_nothing_witness :
  step (mkEnv "0c1d" 40) (POST_posts "Bearer user1" (PostCreate.mk "again")) sample_db =
    sample_db.
Proof.
  apply (failed_request_changes_nothing (mkEnv "0c1d" 40)
           (POST_posts "Bearer user1" (PostCreate.mk "again")) sample_db).
  intros body. vm_compute. discriminate.
Defined.



(** ** Where rows come from and who removes them *)

(** A row of posts after a request was there before or was just created for
    the resolved user. *)
Lemma step_posts_origin env req db p :
  p ∈ posts (step env req db) →
  p ∈ posts db ∨
  ∃ authorization post_data u,
    req = POST_posts authorization post_data ∧
    get_current_user authorization = Return u ∧
    p = PostDB.mk (uuid4 env) (PostCreate.text post_data) (now env)
          (User.id u) (User.username u).
Proof.
  unfold step. destruct req; simpl.
  - rewrite run_lift_bind. destruct (login _); auto.
  - rewrite run_bind_ret, run_list_posts. auto.
  - rewrite run_lift_bind. destruct (get_current_user _) as [u| |] eqn:Hu; auto.
    rewrite run_bind_ret, run_create_post. case_decide; simpl; auto.
    rewrite elem_of_app, list_elem_of_singleton. intros [Hp| ->]; [auto|].
    right. by exists authorization, post_data, u.
  - rewrite run_lift_bind. destruct (get_current_user _) as [u| |]; auto.
    rewrite run_bind_ret, run_delete_post.
    destruct (head _); auto. case_decide; simpl; auto.
    intros [_ Hp]%list_elem_of_filter. auto.
  - rewrite run_lift_bind. destruct (get_current_user _) as [u| |]; auto.
    rewrite run_bind_ret, run_like_post.
    destruct (head _); auto. destruct (head _); auto.
  - rewrite run_lift_bind. destruct (get_current_user _) as [u| |]; auto.
    rewrite run_bind_ret, run_unlike_post.
    destruct (head _); auto. destruct (head _); auto.
  - rewrite run_bind_ret, run_get_user_posts. auto.
Qed.

(** The same for the rows of likes. *)
Lemma step_likes_origin env req db l :
  l ∈ likes (step env req db) →
  l ∈ likes db ∨
  ∃ authorization post_id u,
    req = POST_like post_id authorization ∧
    get_current_user authorization = Return u ∧
    l = LikeDB.mk (next_rowid (likes db)) (User.id u) post_id.
Proof.
  unfold step. destruct req; simpl.
  - rewrite run_lift_bind. destruct (login _); auto.
  - rewrite run_bind_ret, run_list_posts. auto.
  - rewrite run_lift_bind. destruct (get_current_user _) as [u| |]; auto.
    rewrite run_bind_ret, run_create_post. case_decide; simpl; auto.
  - rewrite run_lift_bind. destruct (get_current_user _) as [u| |]; auto.
    rewrite run_bind_ret, run_delete_post.
    destruct (head _); auto. case_decide; simpl; auto.
    intros [_ Hl]%list_elem_of_filter. auto.
  - rewrite run_lift_bind. destruct (get_current_user _) as [u| |] eqn:Hu; auto.
    rewrite run_bind_ret, run_like_post.
    destruct (head _); auto. destruct (head _); simpl; auto.
    rewrite elem_of_app, list_elem_of_singleton. intros [Hl| ->]; [auto|].
    right. by exists authorization, post_id, u.
  - rewrite run_lift_bind. destruct (get_current_user _) as [u| |]; auto.
    rewrite run_bind_ret, run_unlike_post.
    destruct (head _); auto. destruct (head _); simpl; auto.
    intros [_ Hl]%list_elem_of_filter. auto.
  - rewrite run_bind_ret, run_get_user_posts. auto.
Qed.

Lemma reachable_seeded (db : DB) :
  reachable db →
  (∀ p, p ∈ posts db →
        (PostDB.owner_id p = "1" ∧ PostDB.owner_username p = "user1") ∨
        (PostDB.owner_id p = "2" ∧ PostDB.owner_username p = "user2")) ∧
  (∀ l, l ∈ likes db → LikeDB.user_id l = "1" ∨ LikeDB.user_id l = "2").
Proof.
  induction 1 as [|env req db _ [IHp IHl]].
  - split; intros x Hx; by apply elem_of_nil in Hx.
  - split.
    + intros p [Hp|(a & pd & u & _ & Hu & ->)]%step_posts_origin; [by apply IHp|].
      destruct (get_current_user_cases a) as [(u' & Hu' & Hseed)|(d & Hd)];
        [|congruence].
      assert (u' = u) as -> by congruence.
      destruct Hseed as [-> | ->]; simpl; auto.
    + intros l [Hl|(a & pid & u & _ & Hu & ->)]%step_likes_origin; [by apply IHl|].
      destruct (get_current_user_cases a) as [(u' & Hu' & Hseed)|(d & Hd)];
        [|congruence].
      assert (u' = u) as -> by congruence.
      destruct Hseed as [-> | ->]; simpl; auto.
Qed.

(** Posts and likes only ever belong to the two seeded users: whatever
    requests were served, a stored post carries the id and the username of
    one of them, and a stored like the id of one of them. *)
Theorem rows_belong_to_seeded_users (db : DB) :
  reachable db →
  (∀ p, p ∈ posts db →
        (PostDB.owner_id p = "1" ∧ PostDB.owner_username p = "user1") ∨
        (PostDB.owner_id p = "2" ∧ PostDB.owner_username p = "user2")) ∧
  (∀ l, l ∈ likes db → LikeDB.user_id l = "1" ∨ LikeDB.user_id l = "2").
Proof. apply reachable_seeded. Qed.

Lemma rows_belong_to_seeded_users_witness :
  LikeDB.user_id (LikeDB.mk 1 "2" "0c1d") = "1" ∨
  LikeDB.user_id (LikeDB.mk 1 "2" "0c1d") = "2".
Proof.
  apply (proj2 (rows_belong_to_seeded_users sample_db sample_db_reachable)).
  compute_done.
Defined.

(** The primary keys hold in every database the application reaches, and
    every request keeps them: no two posts share an id (a repeated [uuid4]
    is refused) and no two likes share a rowid. *)
Theorem primary_keys_kept :
  (∀ db env req, primary_keys db → primary_keys (step env req db)) ∧
  (∀ db, reachable db → primary_keys db).
Proof.
  split.
  - intros db env req. apply changes_primary_keys, step_changes.
  - intros db Hdb. by apply reachable_consistent.
Qed.

Lemma primary_keys_kept_witness : primary_keys sample_db.
Proof. apply (proj2 primary_keys_kept sample_db). apply sample_db_reachable. Defined.

(** Only the owner removes a post: when a stored post is gone after a
    request, the request was a DELETE of that post's id whose header
    resolved to the user with the post's [owner_id].  No other request
    removes or alters a row of posts. *)
Theorem post_removed_only_by_owner (env : Env) (req : Request) (db : DB) p :
  NoDup (PostDB.id <$> posts db) →
  p ∈ posts db → p ∉ posts (step env req db) →
  ∃ authorization u,
    req = DELETE_post (PostDB.id p) authorization ∧
    get_current_user authorization = Return u ∧
    User.id u = PostDB.owner_id p.
Proof.
  intros Hnd Hp. unfold step. destruct req; simpl.
  - rewrite run_lift_bind. by destruct (login _).
  - by rewrite run_bind_ret, run_list_posts.
  - rewrite run_lift_bind. destruct (get_current_user _) as [u| |]; [|done..].
    rewrite run_bind_ret, run_create_post. case_decide; [done|]. simpl.
    intros Hno. destruct Hno. apply elem_of_app. by left.
  - rewrite run_lift_bind. destruct (get_current_user _) as [u| |] eqn:Hu; [|done..].
    rewrite run_bind_ret, run_delete_post.
    destruct (head _) as [post|] eqn:Hpost; [|done].
    case_decide as Howner; [done|]. simpl. intros Hgone.
    destruct (decide (PostDB.id p = post_id)) as [<-|Hne].
    + apply first_Some in Hpost as [Hpost Hid].
      assert (post = p) as -> by by apply (NoDup_key_inj PostDB.id (posts db)).
      exists authorization, u. split_and!; [done..|].
      destruct (decide (User.id u = PostDB.owner_id p)) as [|Hne]; [done|].
      destruct Howner. congruence.
    + destruct Hgone. by apply list_elem_of_filter.
  - rewrite run_lift_bind. destruct (get_current_user _) as [u| |]; [|done..].
    rewrite run_bind_ret, run_like_post.
    destruct (head _); [|done]. by destruct (head _).
  - rewrite run_lift_bind. destruct (get_current_user _) as [u| |]; [|done..].
    rewrite run_bind_ret, run_unlike_post.
    destruct (head _); [|done]. by destruct (head _).
  - by rewrite run_bind_ret, run_get_user_posts.
Qed.

Lemma post_removed_only_by_owner_witness :
  ∃ authorization u,
    DELETE_post "0c1d" "Bearer user1" = DELETE_post "0c1d" authorization ∧
    get_current_user authorization = Return u ∧ User.id u = "1".
Proof.
  apply (post_removed_only_by_owner (mkEnv "51aa" 40)
           (DELETE_post "0c1d" "Bearer user1") sample_db
           (PostDB.mk "0c1d" "hello" 10 "1" "user1")); compute_done.
Defined.

(** ** Likes: round trip and counts *)

Lemma DB_eta db : mkDB (posts db) (likes db) = db.
Proof. by destruct db. Qed.

Lemma filter_all {A} (P : A → Prop) `{!∀ x, Decision (P x)} (rows : list A) :
  (∀ x, x ∈ rows → P x) → filter P rows = rows.
Proof.
  induction rows as [|r rows IH]; intros Hall; [done|].
  rewrite filter_cons_True by (apply Hall; by left).
  rewrite IH; [done|]. intros x Hx. apply Hall. by right.
Qed.

Lemma filter_none {A} (P : A → Prop) `{!∀ x, Decision (P x)} (rows : list A) :
  (∀ x, x ∈ rows → ¬ P x) → filter P rows = [].
Proof.
  intros Hno. apply elem_of_nil_inv. intros x [HP Hx]%list_elem_of_filter.
  by apply (Hno x).
Qed.

(** Unliking undoes liking: after a like that succeeded, the same user's
    unlike succeeds and the database is again exactly what it was before the
    like (the rowid the like had is free again). *)
Theorem like_then_unlike_restores (db : DB) (post_id : string) (user : User.t) m :
  (run (like_post post_id user) db).1 = Return m →
  run (unlike_post post_id user) (run (like_post post_id user) db).2 =
    (Return "Post unliked successfully", db).
Proof.
  rewrite run_like_post.
  destruct (head _) as [post|] eqn:Hpost; [|done].
  destruct (head (filter _ (likes db))) eqn:Hlike; [done|]. simpl. intros _.
  rewrite run_unlike_post. simpl. rewrite Hpost, filter_app.
  rewrite first_None in Hlike. rewrite (filter_none _ (likes db)) by done.
  rewrite filter_cons_True by done. simpl.
  rewrite filter_app, filter_cons_False by (intros Hne; by apply Hne).
  rewrite filter_nil, app_nil_r, filter_all, DB_eta; [done|].
  intros l Hl%next_rowid_above. lia.
Qed.

Lemma like_then_unlike_restores_witness :
  run (unlike_post "7e2b" user1) (run (like_post "7e2b" user1) sample_db).2 =
    (Return "Post unliked successfully", sample_db).
Proof.
  apply (like_then_unlike_restores sample_db "7e2b" user1 "Post liked successfully").
  vm_compute. reflexivity.
Defined.

(** A like that succeeds raises the count of its post by exactly one and
    leaves the count of every other post id alone. *)
Theorem like_post_counts (db : DB) (post_id : string) (user : User.t) m :
  (run (like_post post_id user) db).1 = Return m →
  let db' := (run (like_post post_id user) db).2 in
  likes_count_of db' post_id = likes_count_of db post_id + 1 ∧
  ∀ other, other ≠ post_id → likes_count_of db' other = likes_count_of db other.
Proof.
  rewrite run_like_post.
  destruct (head _) as [post|]; [|done].
  destruct (head (filter _ (likes db))); [done|]. simpl. intros _.
  unfold likes_count_of. simpl. split.
  - rewrite filter_app, filter_cons_True by done.
    rewrite length_app. simpl. lia.
  - intros other Hne. rewrite filter_app, filter_cons_False by (simpl; congruence).
    by rewrite filter_nil, app_nil_r.
Qed.

Lemma like_post_counts_witness :
  likes_count_of (run (like_post "0c1d" user1) sample_db).2 "0c1d" =
    likes_count_of sample_db "0c1d" + 1.
Proof.
  apply (like_post_counts sample_db "0c1d" user1 "Post liked successfully").
  vm_compute. reflexivity.
Defined.

(** Removing one row of a table without repetition shortens every selection
    that holds it by one. *)
Lemma length_filter_remove {A} `{EqDecision A} (P : A → Prop) `{!∀ x, Decision (P x)}
    (rows : list A) x :
  NoDup rows → x ∈ rows → P x →
  length (filter P rows) = S (length (filter P (filter (λ y, y ≠ x) rows))).
Proof.
  induction rows as [|r rows IH]; [by intros _ ?%elem_of_nil|].
  rewrite NoDup_cons, elem_of_cons. intros [Hr Hnd] [->|Hx] HP.
  - rewrite filter_cons_True by done.
    rewrite (filter_cons_False (λ y, y ≠ r)) by (intros Hne; by apply Hne).
    rewrite (filter_all (λ y, y ≠ r) rows); [done|]. by intros y Hy ->.
  - rewrite (filter_cons_True (λ y, y ≠ x)) by (by intros ->).
    rewrite !(filter_cons P). case_decide; simpl; by rewrite IH.
Qed.

(** An unlike that succeeds lowers the count of its post by exactly one,
    leaves the count of every other post id alone, and keeps every like that
    is not this user's like of this post. *)
Theorem unlike_post_counts (db : DB) (post_id : string) (user : User.t) m :
  NoDup (LikeDB.id <$> likes db) →
  (run (unlike_post post_id user) db).1 = Return m →
  let db' := (run (unlike_post post_id user) db).2 in
  likes_count_of db' post_id = likes_count_of db post_id - 1 ∧
  (∀ other, other ≠ post_id → likes_count_of db' other = likes_count_of db other) ∧
  (∀ l, l ∈ likes db →
        ¬ (LikeDB.user_id l = User.id user ∧ LikeDB.post_id l = post_id) →
        l ∈ likes db').
Proof.
  intros Hids. rewrite run_unlike_post.
  destruct (head _) as [post|]; [|done].
  destruct (head (filter _ (likes db))) as [like|] eqn:Hlike; [|done].
  simpl. intros _.
  apply first_Some in Hlike as [Hlike [Hp Hu]].
  rewrite (filter_key_ne LikeDB.id) by done.
  unfold likes_count_of. simpl. split_and!.
  - rewrite (length_filter_remove (λ l, LikeDB.post_id l = post_id) (likes db) like);
      [lia| |done..].
    by apply (NoDup_fmap_1 LikeDB.id).
  - intros other Hne. rewrite list_filter_filter. f_equal. f_equal.
    apply filter_ext_elem_of. intros l Hl. split; [by intros [? _]|].
    intros Ho. split; [done|]. intros ->. congruence.
  - intros l Hl Hnot. apply list_elem_of_filter. split; [|done].
    intros ->. by apply Hnot.
Qed.

Lemma unlike_post_counts_witness :
  likes_count_of (run (unlike_post "0c1d" user2) sample_db).2 "0c1d" =
    likes_count_of sample_db "0c1d" - 1.
Proof.
  apply (unlike_post_counts sample_db "0c1d" user2 "Post unliked successfully").
  - compute_done.
  - vm_compute. reflexivity.
Defined.

(** Once a post is deleted its id is unknown to every handler: liking,
    unliking or deleting it again answers 404 for any user and changes
    nothing. *)
Theorem deleted_post_is_not_found (db : DB) (post_id : string) (requester : User.t) :
  (run (delete_post post_id requester) db).1 = Return tt →
  let db' := (run (delete_post post_id requester) db).2 in
  ∀ user,
    run (like_post post_id user) db' = (HTTPException 404 "Post not found", db') ∧
    run (unlike_post post_id user) db' = (HTTPException 404 "Post not found", db') ∧
    run (delete_post post_id user) db' = (HTTPException 404 "Post not found", db') ∧
    likes_count_of db' post_id = 0.
Proof.
  rewrite run_delete_post.
  destruct (head _) as [post|]; [|done]. case_decide; [done|]. simpl.
  intros _ user.
  assert (head (filter (λ p, PostDB.id p = post_id)
                  (filter (λ p, PostDB.id p ≠ post_id) (posts db))) = None) as Hgone.
  { apply first_None. by intros p [Hne _]%list_elem_of_filter. }
  rewrite run_like_post, run_unlike_post, run_delete_post. simpl. rewrite Hgone.
  split_and!; [done..|].
  unfold likes_count_of. simpl. rewrite filter_none; [done|].
  by intros l [Hne _]%list_elem_of_filter.
Qed.

Lemma deleted_post_is_not_found_witness :
  run (like_post "0c1d" user2) (run (delete_post "0c1d" user1) sample_db).2 =
    (HTTPException 404 "Post not found", (run (delete_post "0c1d" user1) sample_db).2).
Proof.
  apply (deleted_post_is_not_found sample_db "0c1d" user1).
  vm_compute. reflexivity.
Defined.

(** ** Listings after a write *)

(** A row newer than all the others is listed first. *)
Lemma order_by_timestamp_desc_snoc_newest (rows : list PostDB.t) x :
  (∀ p, p ∈ rows → PostDB.timestamp p < PostDB.timestamp x) →
  order_by_timestamp_desc (rows ++ [x]) = x :: order_by_timestamp_desc rows.
Proof.
  induction rows as [|a rows IH]; intros Hnew; [done|].
  simpl. rewrite IH by (intros p Hp; apply Hnew; by right). simpl.
  rewrite decide_False; [done|].
  specialize (Hnew a ltac:(by left)). lia.
Qed.

Lemma to_Post_same_likes db db' (rows : list PostDB.t) :
  likes db' = likes db → to_Post db' <$> rows = to_Post db <$> rows.
Proof.
  intros Hl. apply list_fmap_ext. intros i p _.
  unfold to_Post, likes_count_of. by rewrite Hl.
Qed.

(** The post [create_post] returns is the post the listing shows from then
    on: when no like names a missing post, the listing after a create is the
    listing before plus the returned post, count 0 included; and when the
    new timestamp is later than all stored ones, the returned post comes
    first. *)
Theorem created_post_is_listed
    (db : DB) (uuid : string) (now : Z) (post_data : PostCreate.t) (owner : User.t)
    (created : Post.t) (before : list Post.t) :
  no_dangling_likes db →
  (run (create_post uuid now post_data owner) db).1 = Return created →
  (run list_posts db).1 = Return before →
  let db' := (run (create_post uuid now post_data owner) db).2 in
  ∃ after,
    run list_posts db' = (Return after, db') ∧
    after ≡ₚ created :: before ∧
    ((∀ p, p ∈ posts db → PostDB.timestamp p < now) → after = created :: before).
Proof.
  intros Hd. rewrite run_create_post, !run_list_posts.
  case_decide as Hnew; [done|]. simpl. intros [= <-] [= <-].
  set (row := PostDB.mk uuid (PostCreate.text post_data) now
                (User.id owner) (User.username owner)).
  set (db' := mkDB (posts db ++ [row]) (likes db)).
  assert (to_Post db' row =
            Post.mk uuid (PostCreate.text post_data) now
              (User.id owner) (User.username owner) 0) as Hrow.
  { unfold to_Post, likes_count_of. simpl. rewrite filter_none; [done|].
    intros l Hl Hp. apply Hnew. rewrite <- Hp. by apply Hd. }
  eexists. split; [apply run_list_posts|].
  change (posts db') with (posts db ++ [row])%list. split.
  - rewrite !order_by_timestamp_desc_Permutation.
    rewrite fmap_app, fmap_cons, fmap_nil, Hrow.
    rewrite (to_Post_same_likes db db') by done.
    by rewrite <- Permutation_cons_append.
  - intros Hlate.
    rewrite order_by_timestamp_desc_snoc_newest by done.
    by rewrite fmap_cons, Hrow.
Qed.

Lemma created_post_is_listed_witness :
  ∃ after,
    run list_posts (run (create_post "51aa" 40 (PostCreate.mk "") user2) sample_db).2 =
      (Return after, (run (create_post "51aa" 40 (PostCreate.mk "") user2) sample_db).2) ∧
    after ≡ₚ Post.mk "51aa" "" 40 "2" "user2" 0 ::
             [Post.mk "7e2b" "" 20 "2" "user2" 0; Post.mk "0c1d" "hello" 10 "1" "user1" 1].
Proof.
  destruct (created_post_is_listed sample_db "51aa" 40 (PostCreate.mk "") user2
              (Post.mk "51aa" "" 40 "2" "user2" 0)
              [Post.mk "7e2b" "" 20 "2" "user2" 0; Post.mk "0c1d" "hello" 10 "1" "user1" 1])
    as (after & Hrun & Hperm & _).
  - rewrite sample_db_eq. intros l ->%list_elem_of_singleton. compute_done.
  - vm_compute. reflexivity.
  - vm_compute. reflexivity.
  - by exists after.
Defined.

(** Deleting a post takes exactly that post out of the listing: what is
    listed afterwards is the listing before without the entries of the
    deleted id, in the same order and with the same counts. *)
Theorem deleted_post_leaves_listing
    (db : DB) (post_id : string) (requester : User.t) (before : list Post.t) :
  (run (delete_post post_id requester) db).1 = Return tt →
  (run list_posts db).1 = Return before →
  let db' := (run (delete_post post_id requester) db).2 in
  run list_posts db' = (Return (filter (λ p, Post.id p ≠ post_id) before), db').
Proof.
  rewrite run_delete_post, run_list_posts.
  destruct (head _) as [post|]; [|done]. case_decide; [done|]. simpl.
  intros _ [= <-]. rewrite run_list_posts. simpl. f_equal. f_equal.
  rewrite order_by_timestamp_desc_filter.
  induction (order_by_timestamp_desc (posts db)) as [|p rows IH]; [done|].
  rewrite fmap_cons, !filter_cons. simpl.
  case_decide as Hne; [|done]. rewrite fmap_cons, IH. f_equal.
  unfold to_Post, likes_count_of. simpl. f_equal. f_equal.
  rewrite list_filter_filter. f_equal. apply list_filter_iff.
  intros l. split; [by intros [? _]|]. intros Hp. split; [done|]. congruence.
Qed.

Lemma deleted_post_leaves_listing_witness :
  run list_posts (run (delete_post "0c1d" user1) sample_db).2 =
    (Return [Post.mk "7e2b" "" 20 "2" "user2" 0],
     (run (delete_post "0c1d" user1) sample_db).2).
Proof.
  rewrite (deleted_post_leaves_listing sample_db "0c1d" user1
             [Post.mk "7e2b" "" 20 "2" "user2" 0; Post.mk "0c1d" "hello" 10 "1" "user1" 1]);
    vm_compute; reflexivity.
Defined.

(** A like shows in the listing as one more on the liked post and nothing
    else: order, fields and the other counts stay. *)
Theorem liked_post_in_listing
    (db : DB) (post_id : string) (user : User.t) m (before : list Post.t) :
  (run (like_post post_id user) db).1 = Return m →
  (run list_posts db).1 = Return before →
  let db' := (run (like_post post_id user) db).2 in
  run list_posts db' =
    (Return ((λ p, if decide (Post.id p = post_id)
                   then Post.mk (Post.id p) (Post.text p) (Post.timestamp p)
                          (Post.owner_id p) (Post.owner_username p)
                          (Post.likes_count p + 1)
                   else p) <$> before), db').
Proof.
  rewrite run_like_post, run_list_posts.
  destruct (head _) as [post|]; [|done].
  destruct (head (filter _ (likes db))); [done|]. simpl.
  intros _ [= <-]. rewrite run_list_posts. simpl. f_equal. f_equal.
  rewrite <- list_fmap_compose. apply list_fmap_ext. intros i p _. simpl.
  unfold to_Post, likes_count_of. simpl. rewrite filter_app, length_app.
  case_decide as Hid.
  - rewrite filter_cons_True by done. f_equal. simpl. lia.
  - rewrite filter_cons_False by (simpl; congruence). f_equal. simpl. lia.
Qed.

Lemma liked_post_in_listing_witness :
  run list_posts (run (like_post "7e2b" user1) sample_db).2 =
    (Return [Post.mk "7e2b" "" 20 "2" "user2" 1; Post.mk "0c1d" "hello" 10 "1" "user1" 1],
     (run (like_post "7e2b" user1) sample_db).2).
Proof.
  rewrite (liked_post_in_listing sample_db "7e2b" user1 "Post liked successfully"
             [Post.mk "7e2b" "" 20 "2" "user2" 0; Post.mk "0c1d" "hello" 10 "1" "user1" 1]);
    vm_compute; reflexivity.
Defined.

(** ** Counts over the whole table *)

Lemma sum_fmap_add {A} (f g : A → Z) (rows : list A) :
  foldr Z.add 0 ((λ x, f x + g x) <$> rows) =
    foldr Z.add 0 (f <$> rows) + foldr Z.add 0 (g <$> rows).
Proof. induction rows as [|r rows IH]; [done|]. rewrite !fmap_cons. simpl. lia. Qed.

Lemma sum_Permutation (l k : list Z) :
  l ≡ₚ k → foldr Z.add 0 l = foldr Z.add 0 k.
Proof. induction 1; simpl; lia. Qed.

(** A key that names one row is hit once when all rows are tried. *)
Lemma sum_key_hits (rows : list PostDB.t) (k : string) :
  NoDup (PostDB.id <$> rows) → k ∈ PostDB.id <$> rows →
  foldr Z.add 0 ((λ p, if decide (k = PostDB.id p) then 1 else 0) <$> rows) = 1.
Proof.
  induction rows as [|r rows IH]; [by intros _ ?%elem_of_nil|].
  rewrite !fmap_cons, NoDup_cons, elem_of_cons. simpl. intros [Hr Hnd] Hk.
  case_decide as Hkr.
  - subst k. assert (foldr Z.add 0
              ((λ p, if decide (PostDB.id r = PostDB.id p) then 1 else 0) <$> rows) = 0)
      as ->; [|done].
    clear IH Hk Hnd. induction rows as [|q rows IH]; [done|].
    rewrite fmap_cons in Hr. apply not_elem_of_cons in Hr as [Hq Hr].
    rewrite fmap_cons. simpl. rewrite decide_False by done. by rewrite IH.
  - destruct Hk as [->|Hk]; [done|]. by rewrite IH.
Qed.

Lemma sum_likes_count (rows : list PostDB.t) (ls : list LikeDB.t) :
  NoDup (PostDB.id <$> rows) →
  (∀ l, l ∈ ls → LikeDB.post_id l ∈ PostDB.id <$> rows) →
  foldr Z.add 0
    ((λ p, Z.of_nat (length (filter (λ l, LikeDB.post_id l = PostDB.id p) ls)))
       <$> rows) = Z.of_nat (length ls).
Proof.
  intros Hnd. induction ls as [|l ls IH]; intros Href.
  - simpl. clear Hnd Href. induction rows as [|r rows IH]; [done|].
    rewrite fmap_cons. simpl. by rewrite IH.
  - erewrite (list_fmap_ext _
               (λ p, (if decide (LikeDB.post_id l = PostDB.id p) then 1 else 0) +
                     Z.of_nat (length (filter (λ l, LikeDB.post_id l = PostDB.id p) ls)))).
    + rewrite sum_fmap_add, sum_key_hits, IH; [simpl; lia| |done|].
      * intros l' Hl'. apply Href. by right.
      * apply Href. by left.
    + intros i p _. simpl. rewrite filter_cons. case_decide; simpl; lia.
Qed.

(** Every like is counted once: in a database the application can reach,
    the [likes_count] fields of the full listing add up to the number of
    rows in the likes table. *)
Theorem listing_counts_every_like (db : DB) (listing : list Post.t) :
  reachable db →
  (run list_posts db).1 = Return listing →
  foldr Z.add 0 (Post.likes_count <$> listing) = Z.of_nat (length (likes db)).
Proof.
  intros (Hd & _ & Hk & _)%reachable_consistent.
  rewrite run_list_posts. simpl. intros [= <-].
  rewrite <- list_fmap_compose.
  rewrite (sum_Permutation _ ((Post.likes_count ∘ to_Post db) <$> posts db))
    by (by rewrite order_by_timestamp_desc_Permutation).
  by apply sum_likes_count.
Qed.

Lemma listing_counts_every_like_witness :
  foldr Z.add 0
    (Post.likes_count <$>
       [Post.mk "7e2b" "" 20 "2" "user2" 0; Post.mk "0c1d" "hello" 10 "1" "user1" 1]) =
    Z.of_nat (length (likes sample_db)).
Proof.
  apply (listing_counts_every_like sample_db).
  - apply sample_db_reachable.
  - vm_compute. reflexivity.
Defined.

(** A selection of likes whose users are pairwise different and all seeded
    has two rows at most. *)
Lemma at_most_two_users (ls : list LikeDB.t) :
  NoDup (LikeDB.user_id <$> ls) →
  (∀ l, l ∈ ls → LikeDB.user_id l = "1" ∨ LikeDB.user_id l = "2") →
  (length ls ≤ 2)%nat.
Proof.
  intros Hnd Hseed.
  rewrite <- (length_fmap LikeDB.user_id).
  change 2%nat with (length ["1"; "2"]).
  apply submseteq_length, NoDup_submseteq; [done|].
  intros u (l & -> & Hl)%list_elem_of_fmap.
  destruct (Hseed l Hl) as [-> | ->]; [by left | by right; left].
Qed.

(** Among the likes of one post, users do not repeat when pairs do not. *)
Lemma NoDup_users_of_post (ls : list LikeDB.t) (post_id : string) :
  NoDup ((λ l, (LikeDB.user_id l, LikeDB.post_id l)) <$> ls) →
  (∀ l, l ∈ ls → LikeDB.post_id l = post_id) →
  NoDup (LikeDB.user_id <$> ls).
Proof.
  induction ls as [|l ls IH]; [constructor|].
  rewrite !fmap_cons, !NoDup_cons. intros [Hl Hnd] Hpost. split.
  - intros (l' & Hu & Hl')%list_elem_of_fmap. apply Hl.
    apply list_elem_of_fmap. exists l'. split; [|done].
    rewrite Hu. f_equal.
    rewrite (Hpost l) by (by left). by rewrite (Hpost l') by (by right).
  - apply IH; [done|]. intros x Hx. apply Hpost. by right.
Qed.

(** With two users and one like per user and post, no post ever shows more
    than two likes. *)
Theorem likes_count_at_most_two (db : DB) (post_id : string) :
  reachable db → 0 ≤ likes_count_of db post_id ≤ 2.
Proof.
  intros Hdb. pose proof (reachable_consistent db Hdb) as (_ & Hpairs & _).
  pose proof (reachable_seeded db Hdb) as [_ Hseed].
  unfold likes_count_of. split; [lia|].
  cut (length (filter (λ l, LikeDB.post_id l = post_id) (likes db)) ≤ 2)%nat; [lia|].
  apply at_most_two_users.
  - apply (NoDup_users_of_post _ post_id).
    + by apply NoDup_fmap_filter.
    + by intros l [Hp _]%list_elem_of_filter.
  - intros l [_ Hl]%list_elem_of_filter. by apply Hseed.
Qed.

Lemma likes_count_at_most_two_witness : 0 ≤ likes_count_of sample_db "0c1d" ≤ 2.
Proof. apply likes_count_at_most_two, sample_db_reachable. Defined.

(** ** One transaction per request *)

(** Every request is one transaction: either it commits nothing and the
    database is what it was, or it commits once and what it made visible is
    the database it leaves behind.  No request shows an intermediate state. *)
Theorem request_commits_at_most_once (env : Env) (req : Request) (db : DB) :
  (observed (app env req) db = [] ∧ step env req db = db) ∨
  observed (app env req) db = [step env req db].
Proof.
  unfold step. destruct req; simpl.
  - left. rewrite observed_lift_bind, run_lift_bind. by destruct (login _).
  - left. rewrite observed_bind_ret, run_bind_ret, run_list_posts.
    unfold observed, list_posts, bind, query_posts. simpl.
    by rewrite for_post_in_spec.
  - rewrite observed_lift_bind, run_lift_bind.
    destruct (get_current_user _); [|by left..].
    rewrite observed_bind_ret, run_bind_ret, run_create_post.
    unfold observed, create_post, bind, add_post, refresh. simpl.
    case_decide; [by left|]. right. simpl. by destruct (head _).
  - rewrite observed_lift_bind, run_lift_bind.
    destruct (get_current_user _); [|by left..].
    rewrite observed_bind_ret, run_bind_ret, observed_delete_post, run_delete_post.
    destruct (head _); [|by left]. case_decide; [by left|by right].
  - rewrite observed_lift_bind, run_lift_bind.
    destruct (get_current_user _); [|by left..].
    rewrite observed_bind_ret, run_bind_ret, run_like_post.
    unfold observed, like_post, bind, query_posts, query_likes. simpl.
    destruct (head _); [|by left]. simpl. destruct (head _); [by left|by right].
  - rewrite observed_lift_bind, run_lift_bind.
    destruct (get_current_user _); [|by left..].
    rewrite observed_bind_ret, run_bind_ret, run_unlike_post.
    unfold observed, unlike_post, bind, query_posts, query_likes. simpl.
    destruct (head _); [|by left]. simpl. destruct (head _); [by right|by left].
  - left. rewrite observed_bind_ret, run_bind_ret, run_get_user_posts.
    unfold observed, get_user_posts, bind, query_posts. simpl.
    by rewrite for_post_in_spec.
Qed.
